(** * Drowsiness detection: metric calculator, calibration, thresholds and
      the per-frame debounce of the MediaPipe hook.

    Shallow embedding of [src/utils/drowsinessDetection.ts] and of the
    [onResults] callback of [src/hooks/useMediaPipe.ts].

    Modelling conventions.
    - A JavaScript [number] is an IEEE-754 double.  It is modelled by
      [number]: a finite real, [+Infinity], [-Infinity] or [NaN].  The
      special values follow the IEEE rules the code relies on ([NaN]
      propagates, every comparison with [NaN] is false, [Infinity - Infinity]
      is [NaN], ...); finite arithmetic is exact real arithmetic, so
      rounding, overflow and the sign of zero are not modelled.
    - Clock readings ([Date.now()], [performance.now()]) are always finite,
      they are reals.
    - [calibrationSamples] only ever counts up from 0 by 1: a [nat].
    - Module-level [let] variables and React refs become fields of explicit
      state records that every function takes and returns. *)

From Stdlib Require Import Reals Lra List Bool Arith Lia.
From Stdlib Require String.
Import ListNotations.
Import String.StringSyntax.
Delimit Scope string_scope with string.

Open Scope R_scope.

(* ------------------------------------------------------------------ *)
(** ** JavaScript numbers *)
(* ------------------------------------------------------------------ *)

Inductive number : Type :=
| NaN
| PInf
| NInf
| Fin (r : R).

Definition Rltb (a b : R) : bool := if Rlt_dec a b then true else false.
Definition Reqb (a b : R) : bool := if Req_dec_T a b then true else false.

Definition inf_of (negative : bool) : number := if negative then NInf else PInf.

(** [a + b] *)
Definition num_add (a b : number) : number :=
  match a, b with
  | NaN, _ | _, NaN => NaN
  | PInf, NInf | NInf, PInf => NaN
  | PInf, _ | _, PInf => PInf
  | NInf, _ | _, NInf => NInf
  | Fin x, Fin y => Fin (x + y)
  end.

Definition num_opp (a : number) : number :=
  match a with
  | NaN => NaN
  | PInf => NInf
  | NInf => PInf
  | Fin x => Fin (- x)
  end.

(** [a - b] *)
Definition num_sub (a b : number) : number := num_add a (num_opp b).

(** [a * b] *)
Definition num_mul (a b : number) : number :=
  match a, b with
  | NaN, _ | _, NaN => NaN
  | Fin x, Fin y => Fin (x * y)
  | Fin x, PInf | PInf, Fin x => if Reqb x 0 then NaN else inf_of (Rltb x 0)
  | Fin x, NInf | NInf, Fin x => if Reqb x 0 then NaN else inf_of (negb (Rltb x 0))
  | PInf, PInf | NInf, NInf => PInf
  | PInf, NInf | NInf, PInf => NInf
  end.

(** [a / b]; a zero divisor is taken to be [+0]. *)
Definition num_div (a b : number) : number :=
  match a, b with
  | NaN, _ | _, NaN => NaN
  | PInf, PInf | PInf, NInf | NInf, PInf | NInf, NInf => NaN
  | PInf, Fin y => inf_of (Rltb y 0)
  | NInf, Fin y => inf_of (negb (Rltb y 0))
  | Fin _, PInf | Fin _, NInf => Fin 0
  | Fin x, Fin y =>
      if Reqb y 0
      then (if Reqb x 0 then NaN else inf_of (Rltb x 0))
      else Fin (x / y)
  end.

(** [a < b] *)
Definition num_ltb (a b : number) : bool :=
  match a, b with
  | NaN, _ | _, NaN => false
  | PInf, _ => false
  | _, NInf => false
  | NInf, _ => true
  | Fin _, PInf => true
  | Fin x, Fin y => Rltb x y
  end.

(** [a > b] *)
Definition num_gtb (a b : number) : bool := num_ltb b a.

(** [a === b] on numbers *)
Definition num_eqb (a b : number) : bool :=
  match a, b with
  | PInf, PInf | NInf, NInf => true
  | Fin x, Fin y => Reqb x y
  | _, _ => false
  end.

(** [Number.isFinite] *)
Definition isFinite (a : number) : bool :=
  match a with
  | Fin _ => true
  | _ => false
  end.

(** [Math.hypot(a, b)]: an infinite argument wins over [NaN]. *)
Definition hypot (a b : number) : number :=
  match a, b with
  | PInf, _ | NInf, _ | _, PInf | _, NInf => PInf
  | NaN, _ | _, NaN => NaN
  | Fin x, Fin y => Fin (sqrt (x * x + y * y))
  end.

Definition num_of_nat (n : nat) : number := Fin (INR n).

(* ------------------------------------------------------------------ *)
(** ** Landmarks as they arrive at run time *)
(* ------------------------------------------------------------------ *)

(** A field of a landmark object: a value whose [typeof] is ['number'], or
    anything else ([undefined], a string, ...). *)
Inductive jsval : Type :=
| JNum (n : number)
| JOther.

Record FaceLandmark : Type := mkLandmark {
  lm_x : jsval;
  lm_y : jsval;
  lm_z : jsval
}.

(** The [landmarks] argument: an array whose slots hold a landmark object or
    nothing ([undefined], [null], a hole), or a value that is no array. *)
Inductive FaceLandmarks : Type :=
| NotArray
| LmArray (slots : list (option FaceLandmark)).

Record Pt : Type := mkPt {
  x : number;
  y : number;
  z : jsval
}.

Definition LEFT_EYE_POINTS : list nat := [33; 160; 158; 133; 153; 144]%nat.
Definition RIGHT_EYE_POINTS : list nat := [263; 387; 385; 362; 380; 373]%nat.
Definition MOUTH_POINTS : list nat := [13; 14; 78; 308; 82; 312; 87; 317]%nat.

Definition EAR_THRESHOLD : number := Fin (41 / 100).
Definition MAR_THRESHOLD : number := Fin (80 / 100).
Definition EAR_CALIBRATION_FACTOR : number := Fin (75 / 100).
Definition MAR_CALIBRATION_FACTOR : number := Fin (140 / 100).

Definition dist2D (a b : Pt) : number :=
  let dx := num_sub (x a) (x b) in
  let dy := num_sub (y a) (y b) in
  hypot dx dy.

Definition getLM (landmarks : FaceLandmarks) (idx : nat) : option Pt :=
  match landmarks with
  | NotArray => None
  | LmArray slots =>
      match nth_error slots idx with
      | Some (Some lm) =>
          match lm_x lm, lm_y lm with
          | JNum vx, JNum vy => Some (mkPt vx vy (lm_z lm))
          | _, _ => None
          end
      | _ => None
      end
  end.

Definition is_null {A : Type} (v : option A) : bool :=
  match v with
  | None => true
  | Some _ => false
  end.

Definition _calcEARFromEye (landmarks : FaceLandmarks) (eyeIndices : list nat)
  : number :=
  if (length eyeIndices <? 6)%nat then NaN else
  let p := map (fun i => getLM landmarks i) eyeIndices in
  if existsb is_null p then NaN else
  match p with
  | Some p1 :: Some p2 :: Some p3 :: Some p4 :: Some p5 :: Some p6 :: _ =>
      let vert1 := dist2D p2 p6 in
      let vert2 := dist2D p3 p5 in
      let horiz := dist2D p1 p4 in
      if num_eqb horiz (Fin 0) then NaN
      else num_div (num_add vert1 vert2) (num_mul (Fin 2) horiz)
  | _ => NaN
  end.

Definition _calcMARFromMouth (landmarks : FaceLandmarks) (mouthIndices : list nat)
  : number :=
  if (length mouthIndices <? 8)%nat then NaN else
  let pts := map (fun i => getLM landmarks i) mouthIndices in
  if existsb is_null pts then NaN else
  match pts with
  | Some u1 :: Some u2 :: Some l1 :: Some r1 :: Some r2 :: Some l2b
      :: Some l3b :: Some lCorner :: _ =>
      let leftCorner := lCorner in
      let rightCorner := r1 in
      let mouthWidth := dist2D leftCorner rightCorner in
      if num_eqb mouthWidth (Fin 0) then NaN else
      let v1 := dist2D u1 l1 in
      let v2 := dist2D u2 l2b in
      let v3 := dist2D u1 l3b in
      let vertAvg := num_div (num_add (num_add v1 v2) v3) (Fin 3) in
      num_div vertAvg mouthWidth
  | _ => NaN
  end.

Definition calculateEAR (landmarks : FaceLandmarks) (eyeIndices : list nat)
  : number := _calcEARFromEye landmarks eyeIndices.

Definition calculateMAR (landmarks : FaceLandmarks) (mouthIndices : list nat)
  : number := _calcMARFromMouth landmarks mouthIndices.

(* ------------------------------------------------------------------ *)
(** ** Calibration state and threshold provider *)
(* ------------------------------------------------------------------ *)

(** The three module-level variables of [drowsinessDetection.ts]. *)
Record CalibrationState : Type := mkCalibration {
  earBaseline : option number;
  marBaseline : option number;
  calibrationSamples : nat
}.

(** Their initial values, which are also what [resetCalibration] restores. *)
Definition initialCalibration : CalibrationState :=
  mkCalibration None None 0.

Definition accumulateCalibration (landmarks : FaceLandmarks)
  (st : CalibrationState) : CalibrationState :=
  let leftEAR := _calcEARFromEye landmarks LEFT_EYE_POINTS in
  let rightEAR := _calcEARFromEye landmarks RIGHT_EYE_POINTS in
  let ear := num_div (num_add leftEAR rightEAR) (Fin 2) in
  let mar := _calcMARFromMouth landmarks MOUTH_POINTS in
  if negb (isFinite ear) || negb (isFinite mar) then st else
  let samples := S (calibrationSamples st) in
  mkCalibration
    (match earBaseline st with
     | None => Some ear
     | Some b => Some (num_add b (num_div (num_sub ear b) (num_of_nat samples)))
     end)
    (match marBaseline st with
     | None => Some mar
     | Some b => Some (num_add b (num_div (num_sub mar b) (num_of_nat samples)))
     end)
    samples.

Definition resetCalibration (st : CalibrationState) : CalibrationState :=
  mkCalibration None None 0.

Definition getCurrentEARThreshold (st : CalibrationState) : number :=
  match earBaseline st with
  | Some b =>
      if (5 <=? calibrationSamples st)%nat
      then num_mul b EAR_CALIBRATION_FACTOR
      else EAR_THRESHOLD
  | None => EAR_THRESHOLD
  end.

Definition getCurrentMARThreshold (st : CalibrationState) : number :=
  match marBaseline st with
  | Some b =>
      if (5 <=? calibrationSamples st)%nat
      then num_mul b MAR_CALIBRATION_FACTOR
      else MAR_THRESHOLD
  | None => MAR_THRESHOLD
  end.

Record DrowsinessFrameMetrics : Type := mkMetrics {
  ear : number;
  mar : number;
  isEyesClosed : bool;
  isYawn : bool;
  earThreshold : number;
  marThreshold : number;
  calibrated : bool;
  metricsSamples : nat
}.

Definition analyzeFrame (landmarks : FaceLandmarks) (st : CalibrationState)
  : DrowsinessFrameMetrics :=
  let ear := calculateEAR landmarks LEFT_EYE_POINTS in
  let mar := calculateMAR landmarks MOUTH_POINTS in
  let earTh := getCurrentEARThreshold st in
  let marTh := getCurrentMARThreshold st in
  mkMetrics ear mar
    (if isFinite ear then num_ltb ear earTh else false)
    (if isFinite mar then num_gtb mar marTh else false)
    earTh marTh
    (5 <=? calibrationSamples st)%nat
    (calibrationSamples st).

(* ------------------------------------------------------------------ *)
(** ** The [onResults] callback of the hook *)
(* ------------------------------------------------------------------ *)

(** The strings handed to [onDetection]. *)
Inductive Status : Type :=
| Active
| Drowsy
| Yawning
| Calibrating
| Inactive.

(** The arguments of one [onDetection] call. *)
Record Detection : Type := mkDetection {
  eyeStatus : Status;
  mouthStatus : Status;
  alertRequired : bool
}.

(** Everything [onResults] reads or writes: the refs of the hook, the two
    closure variables of [initializeMediaPipe] and the calibration module. *)
Record HookState : Type := mkHook {
  calibration : CalibrationState;
  isProcessing : bool;
  closedEyeStart : option R;
  openMouthStart : option R;
  calibrating : bool;
  calibrationStart : R
}.

(** [results.multiFaceLandmarks]: absent, or the array of detected faces. *)
Record Results : Type := mkResults {
  multiFaceLandmarks : option (list FaceLandmarks)
}.

(** The clock readings taken while one frame is handled. *)
Record Clock : Type := mkClock {
  dateNow : R;          (* Date.now() *)
  performanceNow : R    (* performance.now() *)
}.

Definition SUSTAINED_DURATION_MS : R := 3000.
Definition CALIBRATION_WINDOW_MS : R := 2000.

(** One tracker update: [if (cond) { if (ref === null) ref = now } else ref = null]. *)
Definition debounce (cond : bool) (now : R) (start : option R) : option R :=
  if cond then
    match start with
    | None => Some now
    | Some t => Some t
    end
  else None.

(** [ref !== null && (now - ref > 3000)] *)
Definition sustained (now : R) (start : option R) : bool :=
  match start with
  | None => false
  | Some t => Rltb SUSTAINED_DURATION_MS (now - t)
  end.

Definition onResults (results : Results) (clk : Clock) (st : HookState)
  : HookState * Detection :=
  (* isProcessingRef.current = false *)
  let st := mkHook (calibration st) false (closedEyeStart st)
                   (openMouthStart st) (calibrating st) (calibrationStart st) in
  match multiFaceLandmarks results with
  | Some (landmarks :: _) =>
      if calibrating st then
        let cal := accumulateCalibration landmarks (calibration st) in
        let calibrating' :=
          if Rltb CALIBRATION_WINDOW_MS (dateNow clk - calibrationStart st)
          then false else calibrating st in
        (mkHook cal (isProcessing st) (closedEyeStart st) (openMouthStart st)
                calibrating' (calibrationStart st),
         mkDetection Calibrating Calibrating false)
      else
        let leftEAR := calculateEAR landmarks LEFT_EYE_POINTS in
        let rightEAR := calculateEAR landmarks RIGHT_EYE_POINTS in
        let mar := calculateMAR landmarks MOUTH_POINTS in
        let avgEAR := num_div (num_add leftEAR rightEAR) (Fin 2) in
        let earThreshold := getCurrentEARThreshold (calibration st) in
        let marThreshold := getCurrentMARThreshold (calibration st) in
        let eyesClosed := num_ltb avgEAR earThreshold in
        let isYawning := num_gtb mar marThreshold in
        let now := performanceNow clk in
        let closedEye := debounce eyesClosed now (closedEyeStart st) in
        let openMouth := debounce isYawning now (openMouthStart st) in
        let drowsyDetected := sustained now closedEye in
        let yawnDetected := sustained now openMouth in
        let eyeStatus := if drowsyDetected then Drowsy else Active in
        let mouthStatus := if yawnDetected then Yawning else Active in
        let alertRequired := drowsyDetected || yawnDetected in
        (mkHook (calibration st) (isProcessing st) closedEye openMouth
                (calibrating st) (calibrationStart st),
         mkDetection eyeStatus mouthStatus alertRequired)
  | _ => (st, mkDetection Inactive Inactive false)
  end.

(** [startDetection]: [resetCalibration()], then [initializeMediaPipe()]
    starts a fresh calibration phase; the refs are not touched. *)
Definition startDetection (today : R) (st : HookState) : HookState :=
  mkHook (resetCalibration (calibration st)) (isProcessing st)
         (closedEyeStart st) (openMouthStart st) true today.

(** Feeding a sequence of frames, each with its clock readings. *)
Fixpoint runFrames (frames : list (Results * Clock)) (st : HookState)
  : HookState * list Detection :=
  match frames with
  | [] => (st, [])
  | (r, c) :: rest =>
      let (st1, d) := onResults r c st in
      let (st2, ds) := runFrames rest st1 in
      (st2, d :: ds)
  end.

(** The quantities [onResults] and [accumulateCalibration] compute from a
    frame, named for the statements below. *)
Definition averageEAR (landmarks : FaceLandmarks) : number :=
  num_div (num_add (calculateEAR landmarks LEFT_EYE_POINTS)
                   (calculateEAR landmarks RIGHT_EYE_POINTS)) (Fin 2).

Definition mouthRatio (landmarks : FaceLandmarks) : number :=
  calculateMAR landmarks MOUTH_POINTS.

Definition eyesClosedOn (landmarks : FaceLandmarks) (st : HookState) : bool :=
  num_ltb (averageEAR landmarks) (getCurrentEARThreshold (calibration st)).

Definition isYawningOn (landmarks : FaceLandmarks) (st : HookState) : bool :=
  num_gtb (mouthRatio landmarks) (getCurrentMARThreshold (calibration st)).

(** States of the calibration module reachable from module load. *)
Inductive calibration_reachable : CalibrationState -> Prop :=
| reach_initial : calibration_reachable initialCalibration
| reach_accumulate : forall landmarks st,
    calibration_reachable st ->
    calibration_reachable (accumulateCalibration landmarks st)
| reach_reset : forall st,
    calibration_reachable st ->
    calibration_reachable (resetCalibration st).

(** The invariant linking the sample count and the two baselines. *)
Definition calibration_inv (st : CalibrationState) : Prop :=
  (calibrationSamples st = 0%nat <-> earBaseline st = None) /\
  (earBaseline st = None <-> marBaseline st = None).

(** A frame built from a table of landmarks: slots [0 .. size-1]. *)
Definition frameOf (table : nat -> option FaceLandmark) (size : nat)
  : FaceLandmarks := LmArray (map table (seq 0 size)).

Definition point (px py : R) : option FaceLandmark :=
  Some (mkLandmark (JNum (Fin px)) (JNum (Fin py)) JOther).

(** Frames used to exercise the statements.  [attentiveTable] holds an open
    eye (the six points of the worked example, for both eyes) and a mouth
    three tenths as high as it is wide. *)
Definition attentiveTable (i : nat) : option FaceLandmark :=
  if (i =? 33)%nat || (i =? 263)%nat then point 0 0
  else if (i =? 160)%nat || (i =? 387)%nat then point (3/10) (2/10)
  else if (i =? 158)%nat || (i =? 385)%nat then point (6/10) (25/100)
  else if (i =? 133)%nat || (i =? 362)%nat then point 1 0
  else if (i =? 153)%nat || (i =? 380)%nat then point (6/10) (-25/100)
  else if (i =? 144)%nat || (i =? 373)%nat then point (3/10) (-2/10)
  else if (i =? 13)%nat || (i =? 14)%nat then point (5/10) 0
  else if (i =? 78)%nat || (i =? 312)%nat || (i =? 87)%nat then point (5/10) (3/10)
  else if (i =? 308)%nat || (i =? 82)%nat then point 0 0
  else if (i =? 317)%nat then point 1 0
  else None.

Definition attentiveFrame : FaceLandmarks := frameOf attentiveTable 478.

(** [sleepyTable]: the same face with both eyes shut (the lids meet on the
    line between the corners). *)
Definition sleepyTable (i : nat) : option FaceLandmark :=
  if (i =? 160)%nat || (i =? 387)%nat || (i =? 144)%nat || (i =? 373)%nat
  then point (3/10) 0
  else if (i =? 158)%nat || (i =? 385)%nat || (i =? 153)%nat || (i =? 380)%nat
  then point (6/10) 0
  else attentiveTable i.

Definition sleepyFrame : FaceLandmarks := frameOf sleepyTable 478.

(** [dazzledTable]: the attentive face, except that the detector reports an
    infinite abscissa for the upper lip (landmark 13). *)
Definition dazzledTable (i : nat) : option FaceLandmark :=
  if (i =? 13)%nat then Some (mkLandmark (JNum PInf) (JNum (Fin 0)) JOther)
  else attentiveTable i.

Definition dazzledFrame : FaceLandmarks := frameOf dazzledTable 478.

(** The six points of the worked example in slots 0 to 5. *)
Definition exampleEye : FaceLandmarks :=
  LmArray [point 0 0; point (3/10) (2/10); point (6/10) (25/100);
           point 1 0; point (6/10) (-25/100); point (3/10) (-2/10)].

(** A face whose landmark array is empty. *)
Definition emptyFace : FaceLandmarks := LmArray [].

(** A face whose first eight landmarks all sit on the origin. *)
Definition collapsedFace : FaceLandmarks := LmArray (repeat (point 0 0) 8).

(** Feeding a sequence of frames to the accumulator, oldest first. *)
Definition feedCalibration (frames : list FaceLandmarks)
  (st : CalibrationState) : CalibrationState :=
  fold_left (fun s landmarks => accumulateCalibration landmarks s) frames st.

(** A session calibrated on five attentive frames, in the detection phase. *)
Definition watching (closedEye openMouth : option R) : HookState :=
  mkHook (mkCalibration (Some (Fin (45 / 100))) (Some (Fin (3 / 10))) 5)
         false closedEye openMouth false 0.

(** Neither negative nor [-Infinity]: what a ratio of distances can be. *)
Definition not_negative (n : number) : Prop :=
  match n with
  | NInf => False
  | Fin r => 0 <= r
  | NaN | PInf => True
  end.

(* ------------------------------------------------------------------ *)
(** ** Vocabulary for the calibration and session statements *)
(* ------------------------------------------------------------------ *)

(** What [accumulateCalibration] takes from a frame: the averaged eye ratio
    and the mouth ratio when both are finite, nothing otherwise. *)
Definition sampleOf (landmarks : FaceLandmarks) : option (R * R) :=
  match averageEAR landmarks, mouthRatio landmarks with
  | Fin e, Fin m => Some (e, m)
  | _, _ => None
  end.




(** [results.multiFaceLandmarks && results.multiFaceLandmarks.length > 0] *)
Definition hasFace (results : Results) : bool :=
  match multiFaceLandmarks results with
  | Some (_ :: _) => true
  | _ => false
  end.

(** Number of frames of a sequence that show a face. *)
Definition faceCount (frames : list (Results * Clock)) : nat :=
  length (filter (fun rc => hasFace (fst rc)) frames).

(** A finite, non-negative number. *)
Definition finite_not_negative (n : number) : Prop :=
  exists r, n = Fin r /\ 0 <= r.

(** Every baseline that is set is finite and not negative. *)
Definition baselines_sane (st : CalibrationState) : Prop :=
  (forall b, earBaseline st = Some b -> finite_not_negative b) /\
  (forall b, marBaseline st = Some b -> finite_not_negative b).




(** The attentive face with the unused mouth landmark 82 somewhere else. *)
Definition strayCornerTable (i : nat) : option FaceLandmark :=
  if (i =? 82)%nat then point 9 9 else attentiveTable i.

Definition strayCornerFrame : FaceLandmarks := frameOf strayCornerTable 478.

(** A frame that shows a face whose eyes count as closed under the
    thresholds of [st]. *)
Definition eyesShutFrame (st : HookState) (frame : Results * Clock) : Prop :=
  exists landmarks others,
    multiFaceLandmarks (fst frame) = Some (landmarks :: others) /\
    eyesClosedOn landmarks st = true.

(* ------------------------------------------------------------------ *)
(** ** The consumers of [onDetection]: [App.tsx] and [StatusCard] *)
(* ------------------------------------------------------------------ *)

(** The string [onResults] passes for a status. *)
Definition statusString (s : Status) : String.string :=
  match s with
  | Active => "Active"
  | Drowsy => "Drowsy"
  | Yawning => "Yawning"
  | Calibrating => "Calibrating"
  | Inactive => "Inactive"
  end%string.

Module App.

Local Open Scope string_scope.

Record DrowsinessState : Type := mkState {
  eyeStatus : String.string;
  mouthStatus : String.string;
  isMonitoring : bool;
  alertActive : bool
}.

(** The argument of [useState]. *)
Definition initialState : DrowsinessState :=
  mkState "Inactive" "Inactive" false false.

(** [handleDetection]: the updater handed to [setState]. *)
Definition handleDetection (eyeStatus mouthStatus : String.string)
  (alertRequired : bool) (prev : DrowsinessState) : DrowsinessState :=
  mkState eyeStatus mouthStatus (isMonitoring prev) alertRequired.

(** [toggleMonitoring]: the new state, and whether [stopDetection] was
    called. *)
Definition toggleMonitoring (state : DrowsinessState)
  : DrowsinessState * bool :=
  if isMonitoring state
  then (mkState "Inactive" "Inactive" false false, true)
  else (mkState (eyeStatus state) (mouthStatus state) true
                (alertActive state), false).

End App.

Module StatusCard.

Local Open Scope string_scope.

Definition getStatusColor (status : String.string) : String.string :=
  if String.eqb status "Active" then "bg-green-500"
  else if String.eqb status "Drowsy" || String.eqb status "Yawning"
  then "bg-red-500 animate-pulse"
  else "bg-gray-500".

Definition getTextColor (status : String.string) : String.string :=
  if String.eqb status "Active" then "text-green-400"
  else if String.eqb status "Drowsy" || String.eqb status "Yawning"
  then "text-red-400"
  else "text-gray-400".

End StatusCard.

(* ------------------------------------------------------------------ *)
(** * Properties *)
(* ------------------------------------------------------------------ *)

(** ** Numbers *)

Lemma Rltb_true (a b : R) : Rltb a b = true <-> a < b.
Proof.
  unfold Rltb. destruct (Rlt_dec a b); split; intros;
    auto; try discriminate; try contradiction.
Qed.

Lemma Rltb_false (a b : R) : Rltb a b = false <-> ~ a < b.
Proof.
  unfold Rltb. destruct (Rlt_dec a b); split; intros;
    auto; try discriminate; try contradiction.
Qed.

Lemma Reqb_true (a b : R) : Reqb a b = true <-> a = b.
Proof.
  unfold Reqb. destruct (Req_dec_T a b); split; intros;
    auto; try discriminate; try contradiction.
Qed.

Lemma Reqb_false (a b : R) : Reqb a b = false <-> a <> b.
Proof.
  unfold Reqb. destruct (Req_dec_T a b); split; intros;
    auto; try discriminate; try contradiction.
Qed.

(** Decide a concrete comparison of reals. *)
Ltac real_test :=
  repeat match goal with
  | |- context [Rltb ?a ?b] =>
      first [ replace (Rltb a b) with true
                by (symmetry; apply Rltb_true; lra)
            | replace (Rltb a b) with false
                by (symmetry; apply Rltb_false; lra) ]
  | |- context [Reqb ?a ?b] =>
      first [ replace (Reqb a b) with true
                by (symmetry; apply Reqb_true; lra)
            | replace (Reqb a b) with false
                by (symmetry; apply Reqb_false; lra) ]
  end.

Lemma hypot_finite (a b : R) :
  hypot (Fin a) (Fin b) = Fin (sqrt (a * a + b * b)).
Proof. reflexivity. Qed.

Lemma sqrt_of_square_sum (a b d : R) :
  0 <= d -> d * d = a * a + b * b -> sqrt (a * a + b * b) = d.
Proof.
  intros Hd Heq. apply sqrt_lem_1; [nra | assumption | assumption].
Qed.

(** [dist2D] is the Euclidean distance of the [x], [y] projections; [z]
    plays no part. *)
Lemma dist2D_euclidean (ax ay bx by_ : R) (az bz : jsval) :
  dist2D (mkPt (Fin ax) (Fin ay) az) (mkPt (Fin bx) (Fin by_) bz)
  = Fin (sqrt ((ax - bx) * (ax - bx) + (ay - by_) * (ay - by_))).
Proof. reflexivity. Qed.

Lemma dist2D_value (ax ay bx by_ d : R) (az bz : jsval) :
  0 <= d ->
  d * d = (ax - bx) * (ax - bx) + (ay - by_) * (ay - by_) ->
  dist2D (mkPt (Fin ax) (Fin ay) az) (mkPt (Fin bx) (Fin by_) bz) = Fin d.
Proof.
  intros Hd Heq. rewrite dist2D_euclidean. f_equal.
  apply sqrt_of_square_sum; assumption.
Qed.

(** ** Landmark lookup *)

Lemma getLM_frameOf (table : nat -> option FaceLandmark) (size idx : nat) :
  (idx < size)%nat ->
  getLM (frameOf table size) idx =
  match table idx with
  | Some lm =>
      match lm_x lm, lm_y lm with
      | JNum vx, JNum vy => Some (mkPt vx vy (lm_z lm))
      | _, _ => None
      end
  | None => None
  end.
Proof.
  intros Hlt. unfold getLM, frameOf.
  rewrite nth_error_map, nth_error_seq.
  apply Nat.ltb_lt in Hlt. rewrite Hlt. reflexivity.
Qed.

(** When is a landmark unusable: the argument is no array, the slot is
    outside the array or empty, or a coordinate is not a number. *)
Lemma getLM_None_iff (landmarks : FaceLandmarks) (idx : nat) :
  getLM landmarks idx = None <->
  landmarks = NotArray \/
  exists slots, landmarks = LmArray slots /\
    (nth_error slots idx = None \/
     nth_error slots idx = Some None \/
     exists lm, nth_error slots idx = Some (Some lm) /\
                (lm_x lm = JOther \/ lm_y lm = JOther)).
Proof.
  destruct landmarks as [|slots]; cbn [getLM].
  - split; auto.
  - destruct (nth_error slots idx) as [[lm|]|] eqn:Hnth.
    + destruct (lm_x lm) eqn:Hx, (lm_y lm) eqn:Hy; split; intros H;
        try discriminate; try reflexivity.
      * exfalso. destruct H as [H|(s & Hs & [H|[H|(l & Hl & [H|H])]])];
          try discriminate; inversion Hs; subst; congruence.
      * right. exists slots. split; auto. right. right. exists lm. auto.
      * right. exists slots. split; auto. right. right. exists lm. auto.
      * right. exists slots. split; auto. right. right. exists lm. auto.
    + split; auto. intros _. right. exists slots. auto.
    + split; auto. intros _. right. exists slots. auto.
Qed.

(** ** Metric calculator *)

Lemma existsb_null_map (landmarks : FaceLandmarks) (indices : list nat) :
  (exists i, In i indices /\ getLM landmarks i = None) ->
  existsb is_null (map (fun i => getLM landmarks i) indices) = true.
Proof.
  intros (i & Hin & Hnone). apply existsb_exists.
  exists (getLM landmarks i). split.
  - apply in_map_iff. exists i. auto.
  - rewrite Hnone. reflexivity.
Qed.

Lemma calcEAR_missing (landmarks : FaceLandmarks) (eyeIndices : list nat) :
  (exists i, In i eyeIndices /\ getLM landmarks i = None) ->
  _calcEARFromEye landmarks eyeIndices = NaN.
Proof.
  intros Hmiss. unfold _calcEARFromEye.
  destruct (length eyeIndices <? 6)%nat; [reflexivity|].
  rewrite (existsb_null_map _ _ Hmiss). reflexivity.
Qed.

Lemma calcMAR_missing (landmarks : FaceLandmarks) (mouthIndices : list nat) :
  (exists i, In i mouthIndices /\ getLM landmarks i = None) ->
  _calcMARFromMouth landmarks mouthIndices = NaN.
Proof.
  intros Hmiss. unfold _calcMARFromMouth.
  destruct (length mouthIndices <? 8)%nat; [reflexivity|].
  rewrite (existsb_null_map _ _ Hmiss). reflexivity.
Qed.

Lemma calcEAR_six (landmarks : FaceLandmarks) (i1 i2 i3 i4 i5 i6 : nat)
  (p1 p2 p3 p4 p5 p6 : Pt) :
  getLM landmarks i1 = Some p1 -> getLM landmarks i2 = Some p2 ->
  getLM landmarks i3 = Some p3 -> getLM landmarks i4 = Some p4 ->
  getLM landmarks i5 = Some p5 -> getLM landmarks i6 = Some p6 ->
  _calcEARFromEye landmarks [i1; i2; i3; i4; i5; i6] =
  if num_eqb (dist2D p1 p4) (Fin 0) then NaN
  else num_div (num_add (dist2D p2 p6) (dist2D p3 p5))
               (num_mul (Fin 2) (dist2D p1 p4)).
Proof.
  intros H1 H2 H3 H4 H5 H6. unfold _calcEARFromEye.
  cbn [length Nat.ltb Nat.leb map].
  rewrite H1, H2, H3, H4, H5, H6. reflexivity.
Qed.

Lemma calcMAR_eight (landmarks : FaceLandmarks)
  (i1 i2 i3 i4 i5 i6 i7 i8 : nat) (u1 u2 l1 r1 r2 l2b l3b lCorner : Pt) :
  getLM landmarks i1 = Some u1 -> getLM landmarks i2 = Some u2 ->
  getLM landmarks i3 = Some l1 -> getLM landmarks i4 = Some r1 ->
  getLM landmarks i5 = Some r2 -> getLM landmarks i6 = Some l2b ->
  getLM landmarks i7 = Some l3b -> getLM landmarks i8 = Some lCorner ->
  _calcMARFromMouth landmarks [i1; i2; i3; i4; i5; i6; i7; i8] =
  if num_eqb (dist2D lCorner r1) (Fin 0) then NaN
  else num_div (num_div (num_add (num_add (dist2D u1 l1) (dist2D u2 l2b))
                                 (dist2D u1 l3b)) (Fin 3))
               (dist2D lCorner r1).
Proof.
  intros H1 H2 H3 H4 H5 H6 H7 H8. unfold _calcMARFromMouth.
  cbn [length Nat.ltb Nat.leb map].
  rewrite H1, H2, H3, H4, H5, H6, H7, H8. reflexivity.
Qed.

Lemma num_div_fin (a b : R) :
  b <> 0 -> num_div (Fin a) (Fin b) = Fin (a / b).
Proof.
  intros Hb. cbn [num_div]. apply Reqb_false in Hb. rewrite Hb. reflexivity.
Qed.

Lemma exampleEye_ratio :
  _calcEARFromEye exampleEye [0; 1; 2; 3; 4; 5]%nat = Fin (45 / 100).
Proof.
  rewrite (calcEAR_six exampleEye 0 1 2 3 4 5
             (mkPt (Fin 0) (Fin 0) JOther)
             (mkPt (Fin (3/10)) (Fin (2/10)) JOther)
             (mkPt (Fin (6/10)) (Fin (25/100)) JOther)
             (mkPt (Fin 1) (Fin 0) JOther)
             (mkPt (Fin (6/10)) (Fin (-25/100)) JOther)
             (mkPt (Fin (3/10)) (Fin (-2/10)) JOther)) by reflexivity.
  rewrite (dist2D_value 0 0 1 0 1) by lra.
  rewrite (dist2D_value (3/10) (2/10) (3/10) (-2/10) (4/10)) by lra.
  rewrite (dist2D_value (6/10) (25/100) (6/10) (-25/100) (5/10)) by lra.
  cbn [num_eqb num_add num_mul]. real_test.
  rewrite num_div_fin by lra. f_equal. lra.
Qed.

(** C2. When the six eye landmarks are usable and [dist(p1,p4)] is not zero,
    [_calcEARFromEye] returns [(dist(p2,p6) + dist(p3,p5)) / (2 * dist(p1,p4))];
    [dist] is the Euclidean distance of the [x], [y] coordinates whatever
    [z] holds; on the six points of the worked example the ratio is 0.45. *)
Theorem eye_ratio_is_formula :
  (forall (landmarks : FaceLandmarks) (i1 i2 i3 i4 i5 i6 : nat)
          (p1 p2 p3 p4 p5 p6 : Pt),
      getLM landmarks i1 = Some p1 -> getLM landmarks i2 = Some p2 ->
      getLM landmarks i3 = Some p3 -> getLM landmarks i4 = Some p4 ->
      getLM landmarks i5 = Some p5 -> getLM landmarks i6 = Some p6 ->
      num_eqb (dist2D p1 p4) (Fin 0) = false ->
      _calcEARFromEye landmarks [i1; i2; i3; i4; i5; i6] =
      num_div (num_add (dist2D p2 p6) (dist2D p3 p5))
              (num_mul (Fin 2) (dist2D p1 p4))) /\
  (forall (ax ay bx by_ : R) (az bz : jsval),
      dist2D (mkPt (Fin ax) (Fin ay) az) (mkPt (Fin bx) (Fin by_) bz) =
      Fin (sqrt ((ax - bx) * (ax - bx) + (ay - by_) * (ay - by_)))) /\
  _calcEARFromEye exampleEye [0; 1; 2; 3; 4; 5]%nat = Fin (45 / 100).
Proof.
  split; [|split].
  - intros landmarks i1 i2 i3 i4 i5 i6 p1 p2 p3 p4 p5 p6
           H1 H2 H3 H4 H5 H6 Hhoriz.
    rewrite (calcEAR_six _ _ _ _ _ _ _ _ _ _ _ _ _ H1 H2 H3 H4 H5 H6).
    rewrite Hhoriz. reflexivity.
  - intros. apply dist2D_euclidean.
  - exact exampleEye_ratio.
Qed.

Lemma eye_ratio_is_formula_witness :
  let p1 := mkPt (Fin 0) (Fin 0) JOther in
  let p2 := mkPt (Fin (3/10)) (Fin (2/10)) JOther in
  let p3 := mkPt (Fin (6/10)) (Fin (25/100)) JOther in
  let p4 := mkPt (Fin 1) (Fin 0) JOther in
  let p5 := mkPt (Fin (6/10)) (Fin (-25/100)) JOther in
  let p6 := mkPt (Fin (3/10)) (Fin (-2/10)) JOther in
  num_eqb (dist2D p1 p4) (Fin 0) = false /\
  _calcEARFromEye exampleEye [0; 1; 2; 3; 4; 5]%nat =
  num_div (num_add (dist2D p2 p6) (dist2D p3 p5))
          (num_mul (Fin 2) (dist2D p1 p4)).
Proof.
  intros p1 p2 p3 p4 p5 p6.
  assert (Hhoriz : num_eqb (dist2D p1 p4) (Fin 0) = false).
  { unfold p1, p4. rewrite (dist2D_value 0 0 1 0 1) by lra.
    cbn [num_eqb]. apply Reqb_false. lra. }
  split; [exact Hhoriz|].
  apply (proj1 eye_ratio_is_formula exampleEye 0 1 2 3 4 5 p1 p2 p3 p4 p5 p6)%nat;
    try reflexivity.
  exact Hhoriz.
Defined.

Lemma calcEAR_degenerate (landmarks : FaceLandmarks)
  (i1 i2 i3 i4 i5 i6 : nat) (rest : list nat) (p1 p2 p3 p4 p5 p6 : Pt) :
  getLM landmarks i1 = Some p1 -> getLM landmarks i2 = Some p2 ->
  getLM landmarks i3 = Some p3 -> getLM landmarks i4 = Some p4 ->
  getLM landmarks i5 = Some p5 -> getLM landmarks i6 = Some p6 ->
  num_eqb (dist2D p1 p4) (Fin 0) = true ->
  _calcEARFromEye landmarks (i1 :: i2 :: i3 :: i4 :: i5 :: i6 :: rest) = NaN.
Proof.
  intros H1 H2 H3 H4 H5 H6 Hzero. unfold _calcEARFromEye.
  cbn [length Nat.ltb Nat.leb map existsb].
  rewrite H1, H2, H3, H4, H5, H6. cbn [is_null orb].
  destruct (existsb is_null (map (fun i => getLM landmarks i) rest));
    [reflexivity|].
  rewrite Hzero. reflexivity.
Qed.

Lemma calcMAR_degenerate (landmarks : FaceLandmarks)
  (i1 i2 i3 i4 i5 i6 i7 i8 : nat) (rest : list nat)
  (u1 u2 l1 r1 r2 l2b l3b lCorner : Pt) :
  getLM landmarks i1 = Some u1 -> getLM landmarks i2 = Some u2 ->
  getLM landmarks i3 = Some l1 -> getLM landmarks i4 = Some r1 ->
  getLM landmarks i5 = Some r2 -> getLM landmarks i6 = Some l2b ->
  getLM landmarks i7 = Some l3b -> getLM landmarks i8 = Some lCorner ->
  num_eqb (dist2D lCorner r1) (Fin 0) = true ->
  _calcMARFromMouth landmarks
    (i1 :: i2 :: i3 :: i4 :: i5 :: i6 :: i7 :: i8 :: rest) = NaN.
Proof.
  intros H1 H2 H3 H4 H5 H6 H7 H8 Hzero. unfold _calcMARFromMouth.
  cbn [length Nat.ltb Nat.leb map existsb].
  rewrite H1, H2, H3, H4, H5, H6, H7, H8. cbn [is_null orb].
  destruct (existsb is_null (map (fun i => getLM landmarks i) rest));
    [reflexivity|].
  rewrite Hzero. reflexivity.
Qed.

(** C4. Both ratios are [NaN], which is not finite, as soon as one of the
    indices they are given has no usable landmark (the frame is no array,
    the slot is absent or empty, or [x] or [y] is not a number), and also
    when every landmark is usable but the reference distance (eye:
    [dist(p1,p4)]; mouth: [dist(lCorner,r1)]) is exactly zero.  Both
    functions are total. *)
Theorem ratios_nan_on_bad_input :
  isFinite NaN = false /\
  (forall (landmarks : FaceLandmarks) (indices : list nat),
      (exists i, In i indices /\ getLM landmarks i = None) ->
      _calcEARFromEye landmarks indices = NaN /\
      _calcMARFromMouth landmarks indices = NaN) /\
  (forall (landmarks : FaceLandmarks) (idx : nat),
      getLM landmarks idx = None <->
      landmarks = NotArray \/
      exists slots, landmarks = LmArray slots /\
        (nth_error slots idx = None \/
         nth_error slots idx = Some None \/
         exists lm, nth_error slots idx = Some (Some lm) /\
                    (lm_x lm = JOther \/ lm_y lm = JOther))) /\
  (forall (landmarks : FaceLandmarks) (i1 i2 i3 i4 i5 i6 : nat)
          (rest : list nat) (p1 p2 p3 p4 p5 p6 : Pt),
      getLM landmarks i1 = Some p1 -> getLM landmarks i2 = Some p2 ->
      getLM landmarks i3 = Some p3 -> getLM landmarks i4 = Some p4 ->
      getLM landmarks i5 = Some p5 -> getLM landmarks i6 = Some p6 ->
      num_eqb (dist2D p1 p4) (Fin 0) = true ->
      _calcEARFromEye landmarks (i1 :: i2 :: i3 :: i4 :: i5 :: i6 :: rest)
      = NaN) /\
  (forall (landmarks : FaceLandmarks) (i1 i2 i3 i4 i5 i6 i7 i8 : nat)
          (rest : list nat) (u1 u2 l1 r1 r2 l2b l3b lCorner : Pt),
      getLM landmarks i1 = Some u1 -> getLM landmarks i2 = Some u2 ->
      getLM landmarks i3 = Some l1 -> getLM landmarks i4 = Some r1 ->
      getLM landmarks i5 = Some r2 -> getLM landmarks i6 = Some l2b ->
      getLM landmarks i7 = Some l3b -> getLM landmarks i8 = Some lCorner ->
      num_eqb (dist2D lCorner r1) (Fin 0) = true ->
      _calcMARFromMouth landmarks
        (i1 :: i2 :: i3 :: i4 :: i5 :: i6 :: i7 :: i8 :: rest) = NaN).
Proof.
  split; [reflexivity|]. split; [|split; [|split]].
  - intros landmarks indices Hmiss. split.
    + apply calcEAR_missing; assumption.
    + apply calcMAR_missing; assumption.
  - apply getLM_None_iff.
  - intros. eapply calcEAR_degenerate; eassumption.
  - intros. eapply calcMAR_degenerate; eassumption.
Qed.

Lemma dist2D_same_point (a b : R) (az bz : jsval) :
  num_eqb (dist2D (mkPt (Fin a) (Fin b) az) (mkPt (Fin a) (Fin b) bz)) (Fin 0)
  = true.
Proof.
  rewrite (dist2D_value a b a b 0) by lra. cbn [num_eqb].
  apply Reqb_true. reflexivity.
Qed.

Lemma ratios_nan_on_bad_input_witness :
  ((exists i, In i LEFT_EYE_POINTS /\ getLM emptyFace i = None) /\
   _calcEARFromEye emptyFace LEFT_EYE_POINTS = NaN) /\
  ((exists i, In i MOUTH_POINTS /\ getLM emptyFace i = None) /\
   _calcMARFromMouth emptyFace MOUTH_POINTS = NaN) /\
  (num_eqb (dist2D (mkPt (Fin 0) (Fin 0) JOther) (mkPt (Fin 0) (Fin 0) JOther))
           (Fin 0) = true /\
   _calcEARFromEye collapsedFace [0; 1; 2; 3; 4; 5]%nat = NaN /\
   _calcMARFromMouth collapsedFace [0; 1; 2; 3; 4; 5; 6; 7]%nat = NaN).
Proof.
  pose proof ratios_nan_on_bad_input as (_ & Hmiss & _ & Heye & Hmouth).
  assert (He : exists i, In i LEFT_EYE_POINTS /\ getLM emptyFace i = None).
  { exists 33%nat. split; [left; reflexivity | reflexivity]. }
  assert (Hm : exists i, In i MOUTH_POINTS /\ getLM emptyFace i = None).
  { exists 13%nat. split; [left; reflexivity | reflexivity]. }
  pose proof (dist2D_same_point 0 0 JOther JOther) as Hzero.
  split; [|split; [|split; [|split]]].
  - split; [exact He | exact (proj1 (Hmiss emptyFace LEFT_EYE_POINTS He))].
  - split; [exact Hm | exact (proj2 (Hmiss emptyFace MOUTH_POINTS Hm))].
  - exact Hzero.
  - eapply (Heye collapsedFace 0 1 2 3 4 5 [])%nat; try reflexivity.
    exact Hzero.
  - eapply (Hmouth collapsedFace 0 1 2 3 4 5 6 7 [])%nat; try reflexivity.
    exact Hzero.
Defined.

(** ** Calibration accumulator *)

Lemma average_not_finite_l (l r : number) :
  isFinite l = false -> isFinite (num_div (num_add l r) (Fin 2)) = false.
Proof.
  destruct l, r; cbn; intros H; try discriminate; try reflexivity;
    destruct (Rltb 2 0); reflexivity.
Qed.

Lemma average_not_finite_r (l r : number) :
  isFinite r = false -> isFinite (num_div (num_add l r) (Fin 2)) = false.
Proof.
  destruct l, r; cbn; intros H; try discriminate; try reflexivity;
    destruct (Rltb 2 0); reflexivity.
Qed.

(** C5. A frame whose eye ratio (either eye, hence their average) or mouth
    ratio is not finite leaves the calibration state as it was. *)
Theorem accumulate_ignores_nonfinite
  (landmarks : FaceLandmarks) (st : CalibrationState) :
  isFinite (calculateEAR landmarks LEFT_EYE_POINTS) = false \/
  isFinite (calculateEAR landmarks RIGHT_EYE_POINTS) = false \/
  isFinite (averageEAR landmarks) = false \/
  isFinite (mouthRatio landmarks) = false ->
  accumulateCalibration landmarks st = st.
Proof.
  intros H.
  assert (Hbad : negb (isFinite (averageEAR landmarks))
                 || negb (isFinite (mouthRatio landmarks)) = true).
  { destruct H as [H|[H|[H|H]]].
    - unfold averageEAR. rewrite (average_not_finite_l _ _ H). reflexivity.
    - unfold averageEAR. rewrite (average_not_finite_r _ _ H). reflexivity.
    - rewrite H. reflexivity.
    - rewrite H. apply orb_true_r. }
  unfold accumulateCalibration.
  unfold averageEAR, mouthRatio, calculateEAR, calculateMAR in Hbad.
  rewrite Hbad. reflexivity.
Qed.

Lemma accumulate_ignores_nonfinite_witness :
  isFinite (mouthRatio emptyFace) = false /\
  accumulateCalibration emptyFace (mkCalibration (Some (Fin 1)) (Some (Fin 2)) 7)
  = mkCalibration (Some (Fin 1)) (Some (Fin 2)) 7.
Proof.
  split; [reflexivity|].
  apply accumulate_ignores_nonfinite. right. right. right. reflexivity.
Defined.

Lemma accumulate_finite (landmarks : FaceLandmarks) (st : CalibrationState)
  (e m : R) :
  averageEAR landmarks = Fin e ->
  mouthRatio landmarks = Fin m ->
  accumulateCalibration landmarks st =
  mkCalibration
    (match earBaseline st with
     | None => Some (Fin e)
     | Some b =>
         Some (num_add b (num_div (num_sub (Fin e) b)
                                  (num_of_nat (S (calibrationSamples st)))))
     end)
    (match marBaseline st with
     | None => Some (Fin m)
     | Some b =>
         Some (num_add b (num_div (num_sub (Fin m) b)
                                  (num_of_nat (S (calibrationSamples st)))))
     end)
    (S (calibrationSamples st)).
Proof.
  unfold averageEAR, mouthRatio, calculateEAR, calculateMAR.
  intros He Hm. unfold accumulateCalibration. rewrite He, Hm. reflexivity.
Qed.

(** The running mean of a value with itself does not move. *)
Lemma running_mean_fixed (v : R) (n : nat) :
  num_add (Fin v) (num_div (num_sub (Fin v) (Fin v)) (num_of_nat (S n)))
  = Fin v.
Proof.
  assert (Hn : INR (S n) <> 0) by (apply not_0_INR; lia).
  unfold num_of_nat, num_sub. cbn [num_opp num_add].
  rewrite num_div_fin by assumption. cbn [num_add]. f_equal. field. assumption.
Qed.

Lemma feed_identical (e m : R) (frames : list FaceLandmarks) :
  Forall (fun lm => averageEAR lm = Fin e /\ mouthRatio lm = Fin m) frames ->
  forall n : nat,
    feedCalibration frames (mkCalibration (Some (Fin e)) (Some (Fin m)) n)
    = mkCalibration (Some (Fin e)) (Some (Fin m)) (n + length frames).
Proof.
  induction 1 as [|lm frames [He Hm] _ IH]; intros n.
  - cbn. f_equal. lia.
  - cbn [feedCalibration fold_left length].
    rewrite (accumulate_finite lm _ e m He Hm).
    cbn [earBaseline marBaseline calibrationSamples].
    rewrite !running_mean_fixed.
    fold (feedCalibration frames
            (mkCalibration (Some (Fin e)) (Some (Fin m)) (S n))).
    rewrite IH. f_equal. lia.
Qed.

(** C6. A finite sample bumps the count and moves each baseline by
    [(value - baseline) / sampleCount], the first sample being stored as it
    is.  Starting from the empty state, [N >= 1] frames that all measure the
    same finite eye and mouth ratios leave both baselines at those ratios and
    the count at [N]; [resetCalibration] then empties the state and both
    thresholds are the static constants again. *)
Theorem identical_samples_then_reset :
  (forall (landmarks : FaceLandmarks) (st : CalibrationState) (e m : R),
      averageEAR landmarks = Fin e ->
      mouthRatio landmarks = Fin m ->
      let st' := accumulateCalibration landmarks st in
      calibrationSamples st' = S (calibrationSamples st) /\
      earBaseline st' =
        match earBaseline st with
        | None => Some (Fin e)
        | Some b =>
            Some (num_add b (num_div (num_sub (Fin e) b)
                                     (num_of_nat (calibrationSamples st'))))
        end /\
      marBaseline st' =
        match marBaseline st with
        | None => Some (Fin m)
        | Some b =>
            Some (num_add b (num_div (num_sub (Fin m) b)
                                     (num_of_nat (calibrationSamples st'))))
        end) /\
  (forall (frames : list FaceLandmarks) (e m : R),
      (1 <= length frames)%nat ->
      Forall (fun lm => averageEAR lm = Fin e /\ mouthRatio lm = Fin m) frames ->
      let st := feedCalibration frames initialCalibration in
      earBaseline st = Some (Fin e) /\
      marBaseline st = Some (Fin m) /\
      calibrationSamples st = length frames /\
      let cleared := resetCalibration st in
      calibrationSamples cleared = 0%nat /\
      earBaseline cleared = None /\
      marBaseline cleared = None /\
      getCurrentEARThreshold cleared = Fin (41 / 100) /\
      getCurrentMARThreshold cleared = Fin (80 / 100)).
Proof.
  split.
  - intros landmarks st e m He Hm st'. subst st'.
    rewrite (accumulate_finite landmarks st e m He Hm).
    cbn [calibrationSamples earBaseline marBaseline]. auto.
  - intros frames e m Hlen Hall st.
    destruct frames as [|lm frames]; [cbn in Hlen; lia|].
    inversion Hall as [|? ? [He Hm] Hrest]; subst.
    assert (Hst : st = mkCalibration (Some (Fin e)) (Some (Fin m))
                                     (length (lm :: frames))).
    { unfold st. cbn [feedCalibration fold_left].
      rewrite (accumulate_finite lm _ e m He Hm).
      cbn [initialCalibration earBaseline marBaseline calibrationSamples].
      fold (feedCalibration frames
              (mkCalibration (Some (Fin e)) (Some (Fin m)) 1)).
      rewrite (feed_identical e m frames Hrest). reflexivity. }
    rewrite Hst. cbn. repeat split; reflexivity.
Qed.

(** *** The sample frames, measured *)

Lemma getLM_point (table : nat -> option FaceLandmark) (size idx : nat)
  (px py : R) :
  (idx < size)%nat ->
  table idx = point px py ->
  getLM (frameOf table size) idx = Some (mkPt (Fin px) (Fin py) JOther).
Proof.
  intros Hlt Htab. rewrite getLM_frameOf by assumption. rewrite Htab.
  reflexivity.
Qed.

Lemma open_eye_ratio (landmarks : FaceLandmarks) (i1 i2 i3 i4 i5 i6 : nat) :
  getLM landmarks i1 = Some (mkPt (Fin 0) (Fin 0) JOther) ->
  getLM landmarks i2 = Some (mkPt (Fin (3/10)) (Fin (2/10)) JOther) ->
  getLM landmarks i3 = Some (mkPt (Fin (6/10)) (Fin (25/100)) JOther) ->
  getLM landmarks i4 = Some (mkPt (Fin 1) (Fin 0) JOther) ->
  getLM landmarks i5 = Some (mkPt (Fin (6/10)) (Fin (-25/100)) JOther) ->
  getLM landmarks i6 = Some (mkPt (Fin (3/10)) (Fin (-2/10)) JOther) ->
  _calcEARFromEye landmarks [i1; i2; i3; i4; i5; i6] = Fin (45 / 100).
Proof.
  intros H1 H2 H3 H4 H5 H6.
  rewrite (calcEAR_six _ _ _ _ _ _ _ _ _ _ _ _ _ H1 H2 H3 H4 H5 H6).
  rewrite (dist2D_value 0 0 1 0 1) by lra.
  rewrite (dist2D_value (3/10) (2/10) (3/10) (-2/10) (4/10)) by lra.
  rewrite (dist2D_value (6/10) (25/100) (6/10) (-25/100) (5/10)) by lra.
  cbn [num_eqb num_add num_mul]. real_test.
  rewrite num_div_fin by lra. f_equal. lra.
Qed.

Lemma relaxed_mouth_ratio (landmarks : FaceLandmarks)
  (i1 i2 i3 i4 i5 i6 i7 i8 : nat) :
  getLM landmarks i1 = Some (mkPt (Fin (5/10)) (Fin 0) JOther) ->
  getLM landmarks i2 = Some (mkPt (Fin (5/10)) (Fin 0) JOther) ->
  getLM landmarks i3 = Some (mkPt (Fin (5/10)) (Fin (3/10)) JOther) ->
  getLM landmarks i4 = Some (mkPt (Fin 0) (Fin 0) JOther) ->
  getLM landmarks i5 = Some (mkPt (Fin 0) (Fin 0) JOther) ->
  getLM landmarks i6 = Some (mkPt (Fin (5/10)) (Fin (3/10)) JOther) ->
  getLM landmarks i7 = Some (mkPt (Fin (5/10)) (Fin (3/10)) JOther) ->
  getLM landmarks i8 = Some (mkPt (Fin 1) (Fin 0) JOther) ->
  _calcMARFromMouth landmarks [i1; i2; i3; i4; i5; i6; i7; i8] = Fin (3 / 10).
Proof.
  intros H1 H2 H3 H4 H5 H6 H7 H8.
  rewrite (calcMAR_eight _ _ _ _ _ _ _ _ _ _ _ _ _ _ _ _ _
             H1 H2 H3 H4 H5 H6 H7 H8).
  rewrite (dist2D_value 1 0 0 0 1) by lra.
  rewrite !(dist2D_value (5/10) 0 (5/10) (3/10) (3/10)) by lra.
  cbn [num_eqb num_add]. real_test.
  rewrite !num_div_fin by lra. f_equal. lra.
Qed.

Lemma attentive_averageEAR : averageEAR attentiveFrame = Fin (45 / 100).
Proof.
  unfold averageEAR, calculateEAR, LEFT_EYE_POINTS, RIGHT_EYE_POINTS,
    attentiveFrame.
  rewrite !open_eye_ratio by (apply getLM_point; [lia | reflexivity]).
  cbn [num_add]. rewrite num_div_fin by lra. f_equal. lra.
Qed.

Lemma attentive_mouthRatio : mouthRatio attentiveFrame = Fin (3 / 10).
Proof.
  unfold mouthRatio, calculateMAR, MOUTH_POINTS, attentiveFrame.
  apply relaxed_mouth_ratio; apply getLM_point; (lia || reflexivity).
Qed.

Lemma identical_samples_then_reset_witness :
  let frames := repeat attentiveFrame 5 in
  (averageEAR attentiveFrame = Fin (45 / 100) /\
   mouthRatio attentiveFrame = Fin (3 / 10) /\
   calibrationSamples (accumulateCalibration attentiveFrame initialCalibration)
     = 1%nat /\
   earBaseline (accumulateCalibration attentiveFrame initialCalibration)
     = Some (Fin (45 / 100))) /\
  (1 <= length frames)%nat /\
  Forall (fun lm => averageEAR lm = Fin (45 / 100) /\
                    mouthRatio lm = Fin (3 / 10)) frames /\
  earBaseline (feedCalibration frames initialCalibration)
    = Some (Fin (45 / 100)) /\
  marBaseline (feedCalibration frames initialCalibration)
    = Some (Fin (3 / 10)) /\
  calibrationSamples (feedCalibration frames initialCalibration) = 5%nat.
Proof.
  intros frames.
  assert (Hlen : (1 <= length frames)%nat) by (cbn; lia).
  assert (Hall : Forall (fun lm => averageEAR lm = Fin (45 / 100) /\
                                   mouthRatio lm = Fin (3 / 10)) frames).
  { unfold frames. cbn [repeat].
    repeat constructor; first [apply attentive_averageEAR
                              | apply attentive_mouthRatio]. }
  destruct (proj1 identical_samples_then_reset attentiveFrame
              initialCalibration (45 / 100) (3 / 10)
              attentive_averageEAR attentive_mouthRatio) as (Hn1 & He1 & _).
  destruct (proj2 identical_samples_then_reset frames (45 / 100) (3 / 10)
              Hlen Hall) as (He & Hm & Hn & _).
  split.
  - split; [apply attentive_averageEAR|].
    split; [apply attentive_mouthRatio|].
    split; [exact Hn1 | exact He1].
  - repeat split; assumption.
Defined.

(** *** The invariant of the calibration state *)

Lemma inv_initial : calibration_inv initialCalibration.
Proof. split; split; reflexivity. Qed.

Lemma inv_reset (st : CalibrationState) : calibration_inv (resetCalibration st).
Proof. split; split; reflexivity. Qed.

Lemma inv_accumulate (landmarks : FaceLandmarks) (st : CalibrationState) :
  calibration_inv st -> calibration_inv (accumulateCalibration landmarks st).
Proof.
  intros Hinv. unfold accumulateCalibration.
  match goal with |- context [if ?c then _ else _] => destruct c end;
    [assumption|].
  split; cbn [calibrationSamples earBaseline marBaseline].
  - split; intros H; [discriminate|].
    destruct (earBaseline st); discriminate.
  - split; intros H.
    + destruct (earBaseline st); discriminate.
    + destruct (marBaseline st); discriminate.
Qed.

Lemma reachable_inv (st : CalibrationState) :
  calibration_reachable st -> calibration_inv st.
Proof.
  induction 1.
  - apply inv_initial.
  - apply inv_accumulate; assumption.
  - apply inv_reset.
Qed.

Lemma inv_calibrated (st : CalibrationState) :
  calibration_inv st ->
  (5 <= calibrationSamples st)%nat ->
  exists be bm,
    earBaseline st = Some be /\ marBaseline st = Some bm /\
    getCurrentEARThreshold st = num_mul be EAR_CALIBRATION_FACTOR /\
    getCurrentMARThreshold st = num_mul bm MAR_CALIBRATION_FACTOR.
Proof.
  intros [Hn He] Hfive.
  unfold getCurrentEARThreshold, getCurrentMARThreshold.
  destruct (earBaseline st) as [be|] eqn:Hbe.
  - destruct (marBaseline st) as [bm|] eqn:Hbm.
    + exists be, bm. apply Nat.leb_le in Hfive. rewrite Hfive. auto.
    + assert (Some be = None) by (apply He; reflexivity). discriminate.
  - assert (calibrationSamples st = 0%nat) by (apply Hn; reflexivity). lia.
Qed.

Lemma uncalibrated_thresholds (st : CalibrationState) :
  (calibrationSamples st < 5)%nat ->
  getCurrentEARThreshold st = EAR_THRESHOLD /\
  getCurrentMARThreshold st = MAR_THRESHOLD.
Proof.
  intros Hlt. apply Nat.leb_gt in Hlt.
  unfold getCurrentEARThreshold, getCurrentMARThreshold. rewrite Hlt.
  destruct (earBaseline st), (marBaseline st); auto.
Qed.

Lemma feed_reachable (frames : list FaceLandmarks) (st : CalibrationState) :
  calibration_reachable st ->
  calibration_reachable (feedCalibration frames st).
Proof.
  revert st. induction frames as [|lm frames IH]; intros st Hst.
  - exact Hst.
  - cbn [feedCalibration fold_left]. apply IH.
    apply reach_accumulate. exact Hst.
Qed.

Lemma calibrated_state :
  feedCalibration (repeat attentiveFrame 5) initialCalibration
  = mkCalibration (Some (Fin (45 / 100))) (Some (Fin (3 / 10))) 5.
Proof.
  cbn [repeat feedCalibration fold_left].
  rewrite (accumulate_finite attentiveFrame initialCalibration _ _
             attentive_averageEAR attentive_mouthRatio).
  cbn [initialCalibration earBaseline marBaseline calibrationSamples].
  change (feedCalibration (repeat attentiveFrame 4)
            (mkCalibration (Some (Fin (45 / 100))) (Some (Fin (3 / 10))) 1)
          = mkCalibration (Some (Fin (45 / 100))) (Some (Fin (3 / 10))) 5).
  rewrite feed_identical; [reflexivity|].
  cbn [repeat].
  repeat constructor; first [apply attentive_averageEAR
                            | apply attentive_mouthRatio].
Qed.

(** C10. [calibrationSamples] is 0 exactly when [earBaseline] is null,
    exactly when [marBaseline] is null.  This holds initially, is kept by
    [accumulateCalibration] and [resetCalibration], hence holds of every
    reachable state; under it, five or more samples mean both baselines are
    set, so the guard [baseline !== null && calibrationSamples >= 5] of the
    getters is decided by the sample count alone. *)
Theorem calibration_invariant :
  calibration_inv initialCalibration /\
  (forall landmarks st,
      calibration_inv st ->
      calibration_inv (accumulateCalibration landmarks st)) /\
  (forall st, calibration_inv (resetCalibration st)) /\
  (forall st, calibration_reachable st -> calibration_inv st) /\
  (forall st,
      calibration_inv st ->
      (5 <= calibrationSamples st)%nat ->
      earBaseline st <> None /\ marBaseline st <> None) /\
  (forall st,
      calibration_inv st ->
      negb (is_null (earBaseline st)) && (5 <=? calibrationSamples st)%nat
        = (5 <=? calibrationSamples st)%nat /\
      negb (is_null (marBaseline st)) && (5 <=? calibrationSamples st)%nat
        = (5 <=? calibrationSamples st)%nat).
Proof.
  split; [apply inv_initial|].
  split; [intros; apply inv_accumulate; assumption|].
  split; [apply inv_reset|].
  split; [apply reachable_inv|].
  split.
  - intros st Hinv Hfive.
    destruct (inv_calibrated st Hinv Hfive) as (be & bm & He & Hm & _).
    rewrite He, Hm. split; discriminate.
  - intros st Hinv.
    destruct (5 <=? calibrationSamples st)%nat eqn:Hfive.
    + apply Nat.leb_le in Hfive.
      destruct (inv_calibrated st Hinv Hfive) as (be & bm & He & Hm & _).
      rewrite He, Hm. split; reflexivity.
    + rewrite !andb_false_r. split; reflexivity.
Qed.

Lemma calibration_invariant_witness :
  let st := feedCalibration (repeat attentiveFrame 5) initialCalibration in
  calibration_reachable st /\
  calibration_inv st /\
  (5 <= calibrationSamples st)%nat /\
  earBaseline st <> None /\ marBaseline st <> None.
Proof.
  intros st.
  pose proof calibration_invariant as (_ & _ & _ & Hreach & Hset & _).
  assert (Hr : calibration_reachable st)
    by (apply feed_reachable; apply reach_initial).
  assert (Hfive : (5 <= calibrationSamples st)%nat).
  { unfold st. cbn [repeat feedCalibration fold_left].
    rewrite !(accumulate_finite attentiveFrame _ _ _
                attentive_averageEAR attentive_mouthRatio).
    cbn [calibrationSamples initialCalibration]. lia. }
  split; [exact Hr|]. split; [exact (Hreach st Hr)|].
  split; [exact Hfive|]. exact (Hset st (Hreach st Hr) Hfive).
Defined.

(** C3. The getters only read the calibration state.  In every reachable
    state with five or more samples the eye threshold is the eye baseline
    times 0.75 and the mouth threshold the mouth baseline times 1.40; with
    fewer samples they are the constants 0.41 and 0.80. *)
Theorem thresholds_follow_calibration (st : CalibrationState) :
  calibration_reachable st ->
  ((5 <= calibrationSamples st)%nat ->
   exists be bm,
     earBaseline st = Some be /\ marBaseline st = Some bm /\
     getCurrentEARThreshold st = num_mul be (Fin (75 / 100)) /\
     getCurrentMARThreshold st = num_mul bm (Fin (140 / 100))) /\
  ((calibrationSamples st < 5)%nat ->
   getCurrentEARThreshold st = Fin (41 / 100) /\
   getCurrentMARThreshold st = Fin (80 / 100)).
Proof.
  intros Hreach. split.
  - intros Hfive. apply inv_calibrated; [apply reachable_inv|]; assumption.
  - apply uncalibrated_thresholds.
Qed.

Lemma thresholds_follow_calibration_witness :
  (calibration_reachable initialCalibration /\
   (calibrationSamples initialCalibration < 5)%nat /\
   getCurrentEARThreshold initialCalibration = Fin (41 / 100) /\
   getCurrentMARThreshold initialCalibration = Fin (80 / 100)) /\
  (let st := feedCalibration (repeat attentiveFrame 5) initialCalibration in
   calibration_reachable st /\
   (5 <= calibrationSamples st)%nat /\
   getCurrentEARThreshold st = num_mul (Fin (45 / 100)) (Fin (75 / 100)) /\
   getCurrentMARThreshold st = num_mul (Fin (3 / 10)) (Fin (140 / 100))).
Proof.
  split.
  - assert (Hlt : (calibrationSamples initialCalibration < 5)%nat)
      by (cbn; lia).
    split; [apply reach_initial|]. split; [exact Hlt|].
    exact (proj2 (thresholds_follow_calibration initialCalibration
                    reach_initial) Hlt).
  - intros st.
    assert (Hr : calibration_reachable st)
      by (apply feed_reachable; apply reach_initial).
    assert (Hfive : (5 <= calibrationSamples st)%nat)
      by (unfold st; rewrite calibrated_state; cbn; lia).
    split; [exact Hr|]. split; [exact Hfive|].
    destruct (proj1 (thresholds_follow_calibration st Hr) Hfive)
      as (be & bm & He & Hm & Hte & Htm).
    unfold st in He, Hm. rewrite calibrated_state in He, Hm.
    cbn [earBaseline marBaseline] in He, Hm.
    inversion He; inversion Hm; subst be bm.
    split; assumption.
Defined.

(** ** The frame handler *)

Lemma onResults_no_face (results : Results) (clk : Clock) (st : HookState) :
  multiFaceLandmarks results = None \/ multiFaceLandmarks results = Some [] ->
  onResults results clk st =
  (mkHook (calibration st) false (closedEyeStart st) (openMouthStart st)
          (calibrating st) (calibrationStart st),
   mkDetection Inactive Inactive false).
Proof.
  intros [H|H]; unfold onResults; rewrite H; reflexivity.
Qed.

Lemma onResults_calibrating (results : Results) (clk : Clock) (st : HookState)
  (landmarks : FaceLandmarks) (others : list FaceLandmarks) :
  multiFaceLandmarks results = Some (landmarks :: others) ->
  calibrating st = true ->
  onResults results clk st =
  (mkHook (accumulateCalibration landmarks (calibration st)) false
          (closedEyeStart st) (openMouthStart st)
          (negb (Rltb CALIBRATION_WINDOW_MS (dateNow clk - calibrationStart st)))
          (calibrationStart st),
   mkDetection Calibrating Calibrating false).
Proof.
  intros Hface Hcal. unfold onResults. rewrite Hface.
  cbn [calibrating calibration closedEyeStart openMouthStart calibrationStart
       isProcessing].
  rewrite Hcal.
  destruct (Rltb CALIBRATION_WINDOW_MS (dateNow clk - calibrationStart st));
    reflexivity.
Qed.

Lemma onResults_detecting (results : Results) (clk : Clock) (st : HookState)
  (landmarks : FaceLandmarks) (others : list FaceLandmarks) :
  multiFaceLandmarks results = Some (landmarks :: others) ->
  calibrating st = false ->
  let now := performanceNow clk in
  let closedEye := debounce (eyesClosedOn landmarks st) now (closedEyeStart st) in
  let openMouth := debounce (isYawningOn landmarks st) now (openMouthStart st) in
  onResults results clk st =
  (mkHook (calibration st) false closedEye openMouth false (calibrationStart st),
   mkDetection (if sustained now closedEye then Drowsy else Active)
               (if sustained now openMouth then Yawning else Active)
               (sustained now closedEye || sustained now openMouth)).
Proof.
  intros Hface Hcal. unfold onResults. rewrite Hface.
  cbn [calibrating calibration closedEyeStart openMouthStart calibrationStart
       isProcessing].
  rewrite Hcal. reflexivity.
Qed.

Lemma sustained_iff (now : R) (start : option R) :
  sustained now start = true <->
  exists t, start = Some t /\ SUSTAINED_DURATION_MS < now - t.
Proof.
  unfold sustained. destruct start as [t|].
  - rewrite Rltb_true. split.
    + intros H. exists t. auto.
    + intros (t' & Ht & H). inversion Ht; subst. assumption.
  - split; [discriminate|]. intros (t & Ht & _). discriminate.
Qed.

(** C8. A frame without a detected face ([multiFaceLandmarks] missing or
    empty) reports [Inactive], [Inactive], no alert, whatever the state and
    the phase, and leaves both start times, the calibration state and the
    phase as they were. *)
Theorem no_face_reports_inactive
  (results : Results) (clk : Clock) (st : HookState) :
  multiFaceLandmarks results = None \/ multiFaceLandmarks results = Some [] ->
  snd (onResults results clk st) = mkDetection Inactive Inactive false /\
  closedEyeStart (fst (onResults results clk st)) = closedEyeStart st /\
  openMouthStart (fst (onResults results clk st)) = openMouthStart st /\
  calibration (fst (onResults results clk st)) = calibration st /\
  calibrating (fst (onResults results clk st)) = calibrating st /\
  calibrationStart (fst (onResults results clk st)) = calibrationStart st.
Proof.
  intros Hnone. rewrite (onResults_no_face results clk st Hnone).
  cbn. repeat split; reflexivity.
Qed.

Lemma no_face_reports_inactive_witness :
  let st := mkHook (mkCalibration (Some (Fin (45 / 100))) (Some (Fin (3 / 10))) 5)
                   true (Some 1000) (Some 2000) false 0 in
  let out := onResults (mkResults (Some [])) (mkClock 9000 9000) st in
  multiFaceLandmarks (mkResults (Some [])) = Some [] /\
  snd out = mkDetection Inactive Inactive false /\
  closedEyeStart (fst out) = Some 1000 /\
  openMouthStart (fst out) = Some 2000 /\
  calibration (fst out)
    = mkCalibration (Some (Fin (45 / 100))) (Some (Fin (3 / 10))) 5.
Proof.
  intros st out.
  destruct (no_face_reports_inactive (mkResults (Some [])) (mkClock 9000 9000)
              st (or_intror eq_refl)) as (Hd & He & Hm & Hc & _).
  split; [reflexivity|]. repeat split; assumption.
Defined.

(** C1. In the detection phase each signal is debounced on its own.  With
    the frame's condition true and no start time recorded, the start time
    becomes the current timestamp (a recorded one is kept); with the
    condition false it is cleared.  The signal is reported sustained
    ([Drowsy], [Yawning]) exactly when a start time is then recorded and
    [now - start > SUSTAINED_DURATION_MS], and [Active] otherwise;
    [alertRequired] is the disjunction of the two. *)
Theorem detection_debounce
  (results : Results) (clk : Clock) (st : HookState)
  (landmarks : FaceLandmarks) (others : list FaceLandmarks) :
  multiFaceLandmarks results = Some (landmarks :: others) ->
  calibrating st = false ->
  let now := performanceNow clk in
  let st' := fst (onResults results clk st) in
  let d := snd (onResults results clk st) in
  let eyeSet := exists t, closedEyeStart st' = Some t /\
                          SUSTAINED_DURATION_MS < now - t in
  let mouthSet := exists t, openMouthStart st' = Some t /\
                            SUSTAINED_DURATION_MS < now - t in
  (eyesClosedOn landmarks st = true ->
     (closedEyeStart st = None -> closedEyeStart st' = Some now) /\
     (forall t, closedEyeStart st = Some t -> closedEyeStart st' = Some t)) /\
  (eyesClosedOn landmarks st = false -> closedEyeStart st' = None) /\
  (isYawningOn landmarks st = true ->
     (openMouthStart st = None -> openMouthStart st' = Some now) /\
     (forall t, openMouthStart st = Some t -> openMouthStart st' = Some t)) /\
  (isYawningOn landmarks st = false -> openMouthStart st' = None) /\
  (eyeStatus d = Drowsy <-> eyeSet) /\
  (eyeStatus d = Active <-> ~ eyeSet) /\
  (mouthStatus d = Yawning <-> mouthSet) /\
  (mouthStatus d = Active <-> ~ mouthSet) /\
  (alertRequired d = true <-> eyeSet \/ mouthSet).
Proof.
  intros Hface Hcal now st' d eyeSet mouthSet.
  pose proof (onResults_detecting results clk st landmarks others Hface Hcal)
    as Hstep.
  cbv zeta in Hstep. subst st' d eyeSet mouthSet. rewrite Hstep.
  cbn [fst snd closedEyeStart openMouthStart eyeStatus mouthStatus
       alertRequired].
  fold now.
  set (closedEye := debounce (eyesClosedOn landmarks st) now (closedEyeStart st)).
  set (openMouth := debounce (isYawningOn landmarks st) now (openMouthStart st)).
  pose proof (sustained_iff now closedEye) as He.
  pose proof (sustained_iff now openMouth) as Hm.
  repeat split.
  - intros Hnone. subst closedEye. rewrite H, Hnone. reflexivity.
  - intros t Ht. subst closedEye. rewrite H, Ht. reflexivity.
  - intros H. subst closedEye. rewrite H. reflexivity.
  - intros Hnone. subst openMouth. rewrite H, Hnone. reflexivity.
  - intros t Ht. subst openMouth. rewrite H, Ht. reflexivity.
  - intros H. subst openMouth. rewrite H. reflexivity.
  - destruct (sustained now closedEye) eqn:Hs; [|discriminate].
    intros _. apply He. reflexivity.
  - intros H. apply He in H. rewrite H. reflexivity.
  - destruct (sustained now closedEye) eqn:Hs; [discriminate|].
    intros _ H. apply He in H. discriminate.
  - intros H. destruct (sustained now closedEye) eqn:Hs; [|reflexivity].
    exfalso. apply H, He. reflexivity.
  - destruct (sustained now openMouth) eqn:Hs; [|discriminate].
    intros _. apply Hm. reflexivity.
  - intros H. apply Hm in H. rewrite H. reflexivity.
  - destruct (sustained now openMouth) eqn:Hs; [discriminate|].
    intros _ H. apply Hm in H. discriminate.
  - intros H. destruct (sustained now openMouth) eqn:Hs; [|reflexivity].
    exfalso. apply H, Hm. reflexivity.
  - intros H. apply orb_true_iff in H. destruct H as [H|H];
      [left; apply He | right; apply Hm]; assumption.
  - intros [H|H]; apply orb_true_iff; [left; apply He | right; apply Hm];
      assumption.
Qed.

Lemma shut_eye_ratio (landmarks : FaceLandmarks) (i1 i2 i3 i4 i5 i6 : nat) :
  getLM landmarks i1 = Some (mkPt (Fin 0) (Fin 0) JOther) ->
  getLM landmarks i2 = Some (mkPt (Fin (3/10)) (Fin 0) JOther) ->
  getLM landmarks i3 = Some (mkPt (Fin (6/10)) (Fin 0) JOther) ->
  getLM landmarks i4 = Some (mkPt (Fin 1) (Fin 0) JOther) ->
  getLM landmarks i5 = Some (mkPt (Fin (6/10)) (Fin 0) JOther) ->
  getLM landmarks i6 = Some (mkPt (Fin (3/10)) (Fin 0) JOther) ->
  _calcEARFromEye landmarks [i1; i2; i3; i4; i5; i6] = Fin 0.
Proof.
  intros H1 H2 H3 H4 H5 H6.
  rewrite (calcEAR_six _ _ _ _ _ _ _ _ _ _ _ _ _ H1 H2 H3 H4 H5 H6).
  rewrite (dist2D_value 0 0 1 0 1) by lra.
  rewrite (dist2D_value (3/10) 0 (3/10) 0 0) by lra.
  rewrite (dist2D_value (6/10) 0 (6/10) 0 0) by lra.
  cbn [num_eqb num_add num_mul]. real_test.
  rewrite num_div_fin by lra. f_equal. lra.
Qed.

Lemma sleepy_averageEAR : averageEAR sleepyFrame = Fin 0.
Proof.
  unfold averageEAR, calculateEAR, LEFT_EYE_POINTS, RIGHT_EYE_POINTS,
    sleepyFrame.
  rewrite !shut_eye_ratio by (apply getLM_point; [lia | reflexivity]).
  cbn [num_add]. rewrite num_div_fin by lra. f_equal. lra.
Qed.

Lemma sleepy_mouthRatio : mouthRatio sleepyFrame = Fin (3 / 10).
Proof.
  unfold mouthRatio, calculateMAR, MOUTH_POINTS, sleepyFrame.
  apply relaxed_mouth_ratio; apply getLM_point; (lia || reflexivity).
Qed.

Lemma sleepy_eyes_closed (closedEye openMouth : option R) :
  eyesClosedOn sleepyFrame (watching closedEye openMouth) = true.
Proof.
  unfold eyesClosedOn. rewrite sleepy_averageEAR.
  cbn [watching calibration getCurrentEARThreshold earBaseline
       calibrationSamples Nat.leb EAR_CALIBRATION_FACTOR num_mul num_ltb].
  apply Rltb_true. lra.
Qed.

Lemma sleepy_not_yawning (closedEye openMouth : option R) :
  isYawningOn sleepyFrame (watching closedEye openMouth) = false.
Proof.
  unfold isYawningOn. rewrite sleepy_mouthRatio.
  cbn [watching calibration getCurrentMARThreshold marBaseline
       calibrationSamples Nat.leb MAR_CALIBRATION_FACTOR num_mul num_gtb
       num_ltb].
  apply Rltb_false. lra.
Qed.

Lemma detection_debounce_witness :
  let results := mkResults (Some [sleepyFrame]) in
  let clk := mkClock 0 4500 in
  let st := watching (Some 1000) (Some 4000) in
  let out := onResults results clk st in
  multiFaceLandmarks results = Some [sleepyFrame] /\
  calibrating st = false /\
  closedEyeStart (fst out) = Some 1000 /\
  openMouthStart (fst out) = None /\
  eyeStatus (snd out) = Drowsy /\
  mouthStatus (snd out) = Active /\
  alertRequired (snd out) = true.
Proof.
  intros results clk st out.
  destruct (detection_debounce results clk st sleepyFrame [] eq_refl eq_refl)
    as (Heye & _ & _ & Hmouth & Hdrowsy & _ & _ & Hactive & Halert).
  pose proof (proj2 (Heye (sleepy_eyes_closed _ _)) 1000 eq_refl) as Hstart.
  pose proof (Hmouth (sleepy_not_yawning _ _)) as Hclear.
  assert (Hlong : exists t, closedEyeStart (fst out) = Some t /\
                            SUSTAINED_DURATION_MS < performanceNow clk - t).
  { exists 1000. split; [exact Hstart|].
    unfold SUSTAINED_DURATION_MS, clk. cbn [performanceNow]. lra. }
  split; [reflexivity|]. split; [reflexivity|].
  split; [exact Hstart|]. split; [exact Hclear|].
  split; [apply Hdrowsy; exact Hlong|].
  split.
  - apply Hactive. intros (t & Ht & _). unfold out in Hclear.
    rewrite Hclear in Ht. discriminate.
  - apply Halert. left. exact Hlong.
Defined.

(** ** Ratios are never negative *)

Lemma hypot_not_negative (a b : number) : not_negative (hypot a b).
Proof.
  destruct a, b; cbn [hypot not_negative]; auto. apply sqrt_pos.
Qed.

Lemma dist2D_not_negative (a b : Pt) : not_negative (dist2D a b).
Proof. apply hypot_not_negative. Qed.

Lemma add_not_negative (a b : number) :
  not_negative a -> not_negative b -> not_negative (num_add a b).
Proof.
  destruct a, b; cbn [num_add not_negative]; auto. intros; lra.
Qed.

Lemma div_pos_not_negative (a : number) (d : R) :
  0 < d -> not_negative a -> not_negative (num_div a (Fin d)).
Proof.
  intros Hd. destruct a as [| | |r]; cbn [num_div not_negative]; auto;
    try contradiction.
  - intros _. replace (Rltb d 0) with false
      by (symmetry; apply Rltb_false; lra). exact I.
  - intros Hr. replace (Reqb d 0) with false
      by (symmetry; apply Reqb_false; lra).
    cbn [not_negative]. apply Rmult_le_pos; [assumption|].
    left. apply Rinv_0_lt_compat. assumption.
Qed.

Lemma eye_formula_not_negative (s h : number) :
  not_negative s -> not_negative h ->
  num_eqb h (Fin 0) = false ->
  not_negative (num_div s (num_mul (Fin 2) h)).
Proof.
  intros Hs Hh Hne. destruct h as [| | |r]; cbn [num_mul].
  - destruct s; exact I.
  - replace (Reqb 2 0) with false by (symmetry; apply Reqb_false; lra).
    replace (Rltb 2 0) with false by (symmetry; apply Rltb_false; lra).
    destruct s; cbn; auto. lra.
  - destruct Hh.
  - cbn [num_eqb] in Hne. apply Reqb_false in Hne. cbn [not_negative] in Hh.
    apply div_pos_not_negative; [lra | assumption].
Qed.

Lemma calcEAR_not_negative (landmarks : FaceLandmarks) (eyeIndices : list nat) :
  not_negative (_calcEARFromEye landmarks eyeIndices).
Proof.
  unfold _calcEARFromEye.
  destruct (length eyeIndices <? 6)%nat; [exact I|].
  destruct (existsb is_null (map (fun i => getLM landmarks i) eyeIndices));
    [exact I|].
  destruct (map (fun i => getLM landmarks i) eyeIndices)
    as [|[p1|] [|[p2|] [|[p3|] [|[p4|] [|[p5|] [|[p6|] rest]]]]]];
    try exact I.
  destruct (num_eqb (dist2D p1 p4) (Fin 0)) eqn:Hhoriz; [exact I|].
  apply eye_formula_not_negative; try assumption.
  - apply add_not_negative; apply dist2D_not_negative.
  - apply dist2D_not_negative.
Qed.

Lemma averageEAR_not_negative (landmarks : FaceLandmarks) :
  not_negative (averageEAR landmarks).
Proof.
  unfold averageEAR, calculateEAR.
  apply div_pos_not_negative; [lra|].
  apply add_not_negative; apply calcEAR_not_negative.
Qed.

Lemma not_finite_not_below (a threshold : number) :
  not_negative a -> isFinite a = false -> num_ltb a threshold = false.
Proof.
  destruct a; cbn [not_negative isFinite]; intros Hnn Hfin;
    try discriminate; try contradiction;
    destruct threshold; reflexivity.
Qed.

Lemma nan_not_above (threshold : number) : num_gtb NaN threshold = false.
Proof. destruct threshold; reflexivity. Qed.

(** C7, as the code has it.  In the detection phase a frame whose averaged
    eye ratio is not finite, or whose mouth ratio is [NaN], does not satisfy
    the signal's condition: the start time is cleared and the signal is
    reported [Active] (the handler reports [Inactive] only for frames
    without a face).  [analyzeFrame] reports [isEyesClosed = false] and
    [isYawn = false] for every ratio that is not finite.  Both are total
    functions. *)
Theorem nonfinite_metric_reads_active :
  (forall (results : Results) (clk : Clock) (st : HookState)
          (landmarks : FaceLandmarks) (others : list FaceLandmarks),
      multiFaceLandmarks results = Some (landmarks :: others) ->
      calibrating st = false ->
      (isFinite (averageEAR landmarks) = false ->
       closedEyeStart (fst (onResults results clk st)) = None /\
       eyeStatus (snd (onResults results clk st)) = Active) /\
      (mouthRatio landmarks = NaN ->
       openMouthStart (fst (onResults results clk st)) = None /\
       mouthStatus (snd (onResults results clk st)) = Active)) /\
  (forall (landmarks : FaceLandmarks) (st : CalibrationState),
      (isFinite (ear (analyzeFrame landmarks st)) = false ->
       isEyesClosed (analyzeFrame landmarks st) = false) /\
      (isFinite (mar (analyzeFrame landmarks st)) = false ->
       isYawn (analyzeFrame landmarks st) = false)).
Proof.
  split.
  - intros results clk st landmarks others Hface Hcal.
    pose proof (onResults_detecting results clk st landmarks others Hface Hcal)
      as Hstep.
    cbv zeta in Hstep. rewrite Hstep.
    cbn [fst snd closedEyeStart openMouthStart eyeStatus mouthStatus].
    split.
    + intros Hfin.
      assert (Hcond : eyesClosedOn landmarks st = false).
      { unfold eyesClosedOn. apply not_finite_not_below;
          [apply averageEAR_not_negative | exact Hfin]. }
      rewrite Hcond. split; reflexivity.
    + intros Hnan.
      assert (Hcond : isYawningOn landmarks st = false).
      { unfold isYawningOn. rewrite Hnan. apply nan_not_above. }
      rewrite Hcond. split; reflexivity.
  - intros landmarks st. unfold analyzeFrame.
    cbn [ear mar isEyesClosed isYawn].
    split; intros Hfin; rewrite Hfin; reflexivity.
Qed.

Lemma nonfinite_metric_reads_active_witness :
  let results := mkResults (Some [emptyFace]) in
  let clk := mkClock 0 4500 in
  let st := watching (Some 1000) (Some 1000) in
  multiFaceLandmarks results = Some [emptyFace] /\
  calibrating st = false /\
  isFinite (averageEAR emptyFace) = false /\
  mouthRatio emptyFace = NaN /\
  closedEyeStart (fst (onResults results clk st)) = None /\
  eyeStatus (snd (onResults results clk st)) = Active /\
  openMouthStart (fst (onResults results clk st)) = None /\
  mouthStatus (snd (onResults results clk st)) = Active /\
  isFinite (ear (analyzeFrame emptyFace (calibration st))) = false /\
  isEyesClosed (analyzeFrame emptyFace (calibration st)) = false.
Proof.
  intros results clk st.
  destruct (proj1 nonfinite_metric_reads_active results clk st emptyFace []
              eq_refl eq_refl) as (Heye & Hmouth).
  destruct (Heye eq_refl) as (He1 & He2).
  destruct (Hmouth eq_refl) as (Hm1 & Hm2).
  pose proof (proj1 (proj2 nonfinite_metric_reads_active emptyFace
                       (calibration st)) eq_refl) as Han.
  repeat split; assumption || reflexivity.
Defined.

(** C7 as stated does not hold: in the detection phase a face frame with no
    usable landmark has both ratios [NaN], and the handler reports [Active],
    [Active], not [Inactive]. *)
Lemma nonfinite_metric_not_inactive :
  let results := mkResults (Some [emptyFace]) in
  let clk := mkClock 0 4500 in
  let st := watching None None in
  calibrating st = false /\
  isFinite (averageEAR emptyFace) = false /\
  isFinite (mouthRatio emptyFace) = false /\
  snd (onResults results clk st) = mkDetection Active Active false /\
  eyeStatus (snd (onResults results clk st)) <> Inactive /\
  mouthStatus (snd (onResults results clk st)) <> Inactive.
Proof.
  cbv zeta.
  assert (Hout : snd (onResults (mkResults (Some [emptyFace])) (mkClock 0 4500)
                        (watching None None))
                 = mkDetection Active Active false) by reflexivity.
  rewrite Hout. cbn [eyeStatus mouthStatus].
  repeat split; try reflexivity; discriminate.
Qed.

(** ** The calibration phase *)

Lemma onResults_cases (results : Results) :
  (multiFaceLandmarks results = None \/ multiFaceLandmarks results = Some []) \/
  exists landmarks others,
    multiFaceLandmarks results = Some (landmarks :: others).
Proof.
  destruct (multiFaceLandmarks results) as [[|landmarks others]|]; eauto.
Qed.

Lemma onResults_calibrationStart (results : Results) (clk : Clock)
  (st : HookState) :
  calibrationStart (fst (onResults results clk st)) = calibrationStart st.
Proof.
  destruct (onResults_cases results) as [Hnone|(lm & others & Hface)].
  - rewrite (onResults_no_face _ _ _ Hnone). reflexivity.
  - destruct (calibrating st) eqn:Hcal.
    + rewrite (onResults_calibrating _ _ _ _ _ Hface Hcal). reflexivity.
    + pose proof (onResults_detecting _ clk _ _ _ Hface Hcal) as Hstep.
      cbv zeta in Hstep. rewrite Hstep. reflexivity.
Qed.

Lemma onResults_stays_detecting (results : Results) (clk : Clock)
  (st : HookState) :
  calibrating st = false ->
  calibrating (fst (onResults results clk st)) = false.
Proof.
  intros Hcal.
  destruct (onResults_cases results) as [Hnone|(lm & others & Hface)].
  - rewrite (onResults_no_face _ _ _ Hnone). exact Hcal.
  - pose proof (onResults_detecting _ clk _ _ _ Hface Hcal) as Hstep.
    cbv zeta in Hstep. rewrite Hstep. reflexivity.
Qed.

Lemma onResults_stays_calibrating (results : Results) (clk : Clock)
  (st : HookState) :
  calibrating st = true ->
  dateNow clk - calibrationStart st <= CALIBRATION_WINDOW_MS ->
  calibrating (fst (onResults results clk st)) = true.
Proof.
  intros Hcal Hearly.
  destruct (onResults_cases results) as [Hnone|(lm & others & Hface)].
  - rewrite (onResults_no_face _ _ _ Hnone). exact Hcal.
  - rewrite (onResults_calibrating _ _ _ _ _ Hface Hcal). cbn [fst calibrating].
    replace (Rltb CALIBRATION_WINDOW_MS (dateNow clk - calibrationStart st))
      with false by (symmetry; apply Rltb_false; lra).
    reflexivity.
Qed.

Lemma runFrames_cons (results : Results) (clk : Clock)
  (frames : list (Results * Clock)) (st : HookState) :
  fst (runFrames ((results, clk) :: frames) st)
  = fst (runFrames frames (fst (onResults results clk st))).
Proof.
  cbn [runFrames]. destruct (onResults results clk st) as [st1 d].
  cbn [fst]. destruct (runFrames frames st1). reflexivity.
Qed.

Lemma runFrames_app (before after : list (Results * Clock)) (st : HookState) :
  fst (runFrames (before ++ after) st)
  = fst (runFrames after (fst (runFrames before st))).
Proof.
  revert st. induction before as [|[r c] before IH]; intros st.
  - reflexivity.
  - cbn [app]. rewrite !runFrames_cons. apply IH.
Qed.

Lemma runFrames_calibrationStart (frames : list (Results * Clock))
  (st : HookState) :
  calibrationStart (fst (runFrames frames st)) = calibrationStart st.
Proof.
  revert st. induction frames as [|[r c] frames IH]; intros st.
  - reflexivity.
  - rewrite runFrames_cons, IH. apply onResults_calibrationStart.
Qed.

Lemma runFrames_stays_detecting (frames : list (Results * Clock))
  (st : HookState) :
  calibrating st = false -> calibrating (fst (runFrames frames st)) = false.
Proof.
  revert st. induction frames as [|[r c] frames IH]; intros st Hcal.
  - exact Hcal.
  - rewrite runFrames_cons. apply IH, onResults_stays_detecting, Hcal.
Qed.

Lemma runFrames_stays_calibrating (frames : list (Results * Clock))
  (st : HookState) :
  calibrating st = true ->
  (forall r c, In (r, c) frames ->
               dateNow c - calibrationStart st <= CALIBRATION_WINDOW_MS) ->
  calibrating (fst (runFrames frames st)) = true.
Proof.
  revert st. induction frames as [|[r c] frames IH]; intros st Hcal Hearly.
  - exact Hcal.
  - rewrite runFrames_cons. apply IH.
    + apply onResults_stays_calibrating; [exact Hcal|].
      apply (Hearly r c). left. reflexivity.
    + intros r' c' Hin. rewrite onResults_calibrationStart.
      apply (Hearly r' c'). right. exact Hin.
Qed.

(** The first face frame later than the window finds the phase flag still
    set and clears it; from then on the flag stays cleared. *)
Lemma late_face_ends_calibration (results : Results) (clk : Clock)
  (st : HookState) (landmarks : FaceLandmarks) (others : list FaceLandmarks) :
  multiFaceLandmarks results = Some (landmarks :: others) ->
  CALIBRATION_WINDOW_MS < dateNow clk - calibrationStart st ->
  calibrating (fst (onResults results clk st)) = false.
Proof.
  intros Hface Hlate. destruct (calibrating st) eqn:Hcal.
  - rewrite (onResults_calibrating _ _ _ _ _ Hface Hcal). cbn [fst calibrating].
    apply Rltb_true in Hlate. rewrite Hlate. reflexivity.
  - apply onResults_stays_detecting. exact Hcal.
Qed.

(** C9, as the code has it.  The phase is a flag, set when a session starts.
    While it is set, a face frame is fed to the accumulator and reported
    [Calibrating], [Calibrating], no alert, and the flag is cleared exactly
    when that frame's elapsed time exceeds [CALIBRATION_WINDOW_MS] = 2000.
    Hence, with a clock that does not run backwards, every face frame at
    elapsed time at most 2000 ms is a calibration frame; and every face
    frame that comes after a face frame with elapsed time above 2000 ms is
    handled by the detection phase, which leaves the calibration state
    alone and updates the two start times. *)
Theorem calibration_phase_is_latched :
  CALIBRATION_WINDOW_MS = 2000 /\
  (forall (results : Results) (clk : Clock) (st : HookState)
          (landmarks : FaceLandmarks) (others : list FaceLandmarks),
      multiFaceLandmarks results = Some (landmarks :: others) ->
      calibrating st = true ->
      calibration (fst (onResults results clk st))
        = accumulateCalibration landmarks (calibration st) /\
      snd (onResults results clk st)
        = mkDetection Calibrating Calibrating false /\
      (calibrating (fst (onResults results clk st)) = false <->
       CALIBRATION_WINDOW_MS < dateNow clk - calibrationStart st)) /\
  (forall (today : R) (st0 : HookState) (before : list (Results * Clock))
          (results : Results) (clk : Clock)
          (landmarks : FaceLandmarks) (others : list FaceLandmarks),
      multiFaceLandmarks results = Some (landmarks :: others) ->
      (forall r c, In (r, c) before -> dateNow c <= dateNow clk) ->
      dateNow clk - today <= CALIBRATION_WINDOW_MS ->
      let st := fst (runFrames before (startDetection today st0)) in
      calibrating st = true /\
      calibration (fst (onResults results clk st))
        = accumulateCalibration landmarks (calibration st) /\
      snd (onResults results clk st)
        = mkDetection Calibrating Calibrating false) /\
  (forall (today : R) (st0 : HookState) (before : list (Results * Clock))
          (late : Results) (lateClk : Clock)
          (lateLandmarks : FaceLandmarks) (lateOthers : list FaceLandmarks)
          (between : list (Results * Clock))
          (results : Results) (clk : Clock)
          (landmarks : FaceLandmarks) (others : list FaceLandmarks),
      multiFaceLandmarks late = Some (lateLandmarks :: lateOthers) ->
      CALIBRATION_WINDOW_MS < dateNow lateClk - today ->
      multiFaceLandmarks results = Some (landmarks :: others) ->
      let st := fst (runFrames (before ++ (late, lateClk) :: between)
                               (startDetection today st0)) in
      let out := onResults results clk st in
      calibrating st = false /\
      calibration (fst out) = calibration st /\
      closedEyeStart (fst out)
        = debounce (eyesClosedOn landmarks st) (performanceNow clk)
                   (closedEyeStart st) /\
      openMouthStart (fst out)
        = debounce (isYawningOn landmarks st) (performanceNow clk)
                   (openMouthStart st) /\
      eyeStatus (snd out) <> Calibrating /\
      mouthStatus (snd out) <> Calibrating).
Proof.
  split; [reflexivity|]. split; [|split].
  - intros results clk st landmarks others Hface Hcal.
    rewrite (onResults_calibrating _ _ _ _ _ Hface Hcal).
    cbn [fst snd calibration calibrating].
    split; [reflexivity|]. split; [reflexivity|].
    rewrite negb_false_iff. apply Rltb_true.
  - intros today st0 before results clk landmarks others Hface Hmono Hearly st.
    assert (Hcal : calibrating st = true).
    { unfold st. apply runFrames_stays_calibrating; [reflexivity|].
      intros r c Hin. cbn [startDetection calibrationStart].
      pose proof (Hmono r c Hin). lra. }
    split; [exact Hcal|].
    rewrite (onResults_calibrating _ _ _ _ _ Hface Hcal).
    split; reflexivity.
  - intros today st0 before late lateClk lateLandmarks lateOthers between
           results clk landmarks others Hlate Helapsed Hface st out.
    assert (Hcal : calibrating st = false).
    { unfold st. rewrite runFrames_app, runFrames_cons.
      apply runFrames_stays_detecting.
      eapply late_face_ends_calibration; [exact Hlate|].
      rewrite runFrames_calibrationStart. exact Helapsed. }
    split; [exact Hcal|].
    pose proof (onResults_detecting _ clk _ _ _ Hface Hcal) as Hstep.
    cbv zeta in Hstep. unfold out. rewrite Hstep.
    cbn [fst snd calibration closedEyeStart openMouthStart eyeStatus
         mouthStatus].
    repeat split; try reflexivity;
      match goal with
      | |- (if ?c then _ else _) <> _ => destruct c; discriminate
      end.
Qed.

Lemma calibration_phase_is_latched_witness :
  let face := mkResults (Some [attentiveFrame]) in
  let started := startDetection 0 (watching (Some 7) None) in
  (* a frame inside the window *)
  (dateNow (mkClock 1500 1500) - 0 <= CALIBRATION_WINDOW_MS /\
   snd (onResults face (mkClock 1500 1500) (fst (runFrames [] started)))
     = mkDetection Calibrating Calibrating false) /\
  (* a frame after a late face frame *)
  (CALIBRATION_WINDOW_MS < dateNow (mkClock 2500 2500) - 0 /\
   calibrating (fst (runFrames ([] ++ [(face, mkClock 2500 2500)]) started))
     = false) /\
  (* the late face frame itself *)
  (calibrating started = true /\
   calibrating (fst (onResults face (mkClock 2500 2500) started)) = false).
Proof.
  intros face started.
  pose proof calibration_phase_is_latched as (_ & Hflag & Hin & Hafter).
  assert (Hearly : dateNow (mkClock 1500 1500) - 0 <= CALIBRATION_WINDOW_MS)
    by (unfold CALIBRATION_WINDOW_MS; cbn [dateNow]; lra).
  assert (Hlate : CALIBRATION_WINDOW_MS < dateNow (mkClock 2500 2500) - 0)
    by (unfold CALIBRATION_WINDOW_MS; cbn [dateNow]; lra).
  split; [|split].
  - split; [exact Hearly|].
    refine (proj2 (proj2 (Hin 0 (watching (Some 7) None) [] face
                            (mkClock 1500 1500) attentiveFrame []
                            eq_refl _ Hearly))).
    intros r c [].
  - split; [exact Hlate|].
    exact (proj1 (Hafter 0 (watching (Some 7) None) [] face (mkClock 2500 2500)
                    attentiveFrame [] [] face (mkClock 2600 2600)
                    attentiveFrame [] eq_refl Hlate eq_refl)).
  - split; [reflexivity|].
    apply (proj2 (proj2 (Hflag face (mkClock 2500 2500) started
                           attentiveFrame [] eq_refl eq_refl))).
    exact Hlate.
Defined.

(** C9 as stated does not hold: when the first face of a session shows up
    5000 ms after the start, well past the 2000 ms window, the frame is
    still fed to the accumulator and reported [Calibrating]. *)
Lemma late_first_face_still_calibrates :
  let started := startDetection 0 (watching None None) in
  let out := onResults (mkResults (Some [attentiveFrame])) (mkClock 5000 5000)
                       started in
  CALIBRATION_WINDOW_MS <= dateNow (mkClock 5000 5000) - calibrationStart started /\
  snd out = mkDetection Calibrating Calibrating false /\
  calibration started = initialCalibration /\
  calibration (fst out)
    = mkCalibration (Some (Fin (45 / 100))) (Some (Fin (3 / 10))) 1.
Proof.
  cbv zeta.
  rewrite (onResults_calibrating (mkResults (Some [attentiveFrame]))
             (mkClock 5000 5000) (startDetection 0 (watching None None))
             attentiveFrame [] eq_refl eq_refl).
  cbn [fst snd calibration startDetection calibrationStart dateNow
       resetCalibration].
  split; [unfold CALIBRATION_WINDOW_MS; lra|].
  split; [reflexivity|]. split; [reflexivity|].
  rewrite (accumulate_finite attentiveFrame _ _ _
             attentive_averageEAR attentive_mouthRatio).
  reflexivity.
Qed.

(** ** Worked scenarios *)

Lemma attentive_eyes_open (closedEye openMouth : option R) :
  eyesClosedOn attentiveFrame (watching closedEye openMouth) = false.
Proof.
  unfold eyesClosedOn. rewrite attentive_averageEAR.
  cbn [watching calibration getCurrentEARThreshold earBaseline
       calibrationSamples Nat.leb EAR_CALIBRATION_FACTOR num_mul num_ltb].
  apply Rltb_false. lra.
Qed.

Lemma attentive_not_yawning (closedEye openMouth : option R) :
  isYawningOn attentiveFrame (watching closedEye openMouth) = false.
Proof.
  unfold isYawningOn. rewrite attentive_mouthRatio.
  cbn [watching calibration getCurrentMARThreshold marBaseline
       calibrationSamples Nat.leb MAR_CALIBRATION_FACTOR num_mul num_gtb
       num_ltb].
  apply Rltb_false. lra.
Qed.

Lemma sleepy_step (clk : Clock) (closedEye openMouth : option R) :
  let now := performanceNow clk in
  let started := debounce true now closedEye in
  onResults (mkResults (Some [sleepyFrame])) clk (watching closedEye openMouth)
  = (watching started None,
     mkDetection (if sustained now started then Drowsy else Active) Active
                 (sustained now started)).
Proof.
  cbv zeta.
  pose proof (onResults_detecting (mkResults (Some [sleepyFrame])) clk
                (watching closedEye openMouth) sleepyFrame [] eq_refl eq_refl)
    as Hstep.
  cbv zeta in Hstep. rewrite Hstep.
  rewrite sleepy_eyes_closed, sleepy_not_yawning.
  cbn [debounce sustained]. rewrite orb_false_r. reflexivity.
Qed.

Lemma attentive_step (clk : Clock) (closedEye openMouth : option R) :
  onResults (mkResults (Some [attentiveFrame])) clk
            (watching closedEye openMouth)
  = (watching None None, mkDetection Active Active false).
Proof.
  pose proof (onResults_detecting (mkResults (Some [attentiveFrame])) clk
                (watching closedEye openMouth) attentiveFrame []
                eq_refl eq_refl) as Hstep.
  cbv zeta in Hstep. rewrite Hstep.
  rewrite attentive_eyes_open, attentive_not_yawning. reflexivity.
Qed.

Lemma runFrames_step (results : Results) (clk : Clock)
  (frames : list (Results * Clock)) (st : HookState) :
  snd (runFrames ((results, clk) :: frames) st)
  = snd (onResults results clk st)
      :: snd (runFrames frames (fst (onResults results clk st))).
Proof.
  cbn [runFrames]. destruct (onResults results clk st) as [st1 d].
  cbn [fst snd]. destruct (runFrames frames st1). reflexivity.
Qed.

(** Eyes shut at 1000 ms and kept shut: still [Active] at 4000 ms, [Drowsy]
    with the alert at 4001 ms. *)
Lemma drowsy_once_the_duration_has_passed :
  let sleepy := mkResults (Some [sleepyFrame]) in
  snd (runFrames [(sleepy, mkClock 0 1000); (sleepy, mkClock 0 4000);
                  (sleepy, mkClock 0 4001)] (watching None None))
  = [mkDetection Active Active false; mkDetection Active Active false;
     mkDetection Drowsy Active true].
Proof.
  cbv zeta.
  repeat (first [rewrite runFrames_step | rewrite sleepy_step];
          cbn [fst snd runFrames debounce sustained performanceNow]).
  unfold SUSTAINED_DURATION_MS. real_test. reflexivity.
Qed.

(** One frame with open eyes in between restarts the count: at 4001 ms the
    eyes have been shut since 3000 ms only. *)
Lemma one_open_frame_resets_the_streak :
  let sleepy := mkResults (Some [sleepyFrame]) in
  let awake := mkResults (Some [attentiveFrame]) in
  snd (runFrames [(sleepy, mkClock 0 1000); (awake, mkClock 0 2000);
                  (sleepy, mkClock 0 3000); (sleepy, mkClock 0 4001)]
                 (watching None None))
  = [mkDetection Active Active false; mkDetection Active Active false;
     mkDetection Active Active false; mkDetection Active Active false].
Proof.
  cbv zeta.
  rewrite runFrames_step, sleepy_step. cbn [fst snd debounce].
  rewrite runFrames_step, attentive_step. cbn [fst snd].
  rewrite runFrames_step, sleepy_step. cbn [fst snd debounce].
  rewrite runFrames_step, sleepy_step.
  cbn [fst snd runFrames debounce sustained performanceNow].
  unfold SUSTAINED_DURATION_MS. real_test. reflexivity.
Qed.

Lemma dazzled_mouthRatio : mouthRatio dazzledFrame = PInf.
Proof.
  unfold mouthRatio, calculateMAR, MOUTH_POINTS, dazzledFrame.
  rewrite (calcMAR_eight _ _ _ _ _ _ _ _ _
             (mkPt PInf (Fin 0) JOther)
             (mkPt (Fin (5/10)) (Fin 0) JOther)
             (mkPt (Fin (5/10)) (Fin (3/10)) JOther)
             (mkPt (Fin 0) (Fin 0) JOther)
             (mkPt (Fin 0) (Fin 0) JOther)
             (mkPt (Fin (5/10)) (Fin (3/10)) JOther)
             (mkPt (Fin (5/10)) (Fin (3/10)) JOther)
             (mkPt (Fin 1) (Fin 0) JOther));
    try (apply getLM_point; [lia | reflexivity]);
    try (rewrite getLM_frameOf by lia; reflexivity).
  rewrite (dist2D_value 1 0 0 0 1) by lra.
  rewrite (dist2D_value (5/10) 0 (5/10) (3/10) (3/10)) by lra.
  repeat (progress
            (cbn [dist2D x y num_sub num_opp num_add hypot num_eqb num_div
                  inf_of];
             real_test)).
  reflexivity.
Qed.

(** A mouth ratio of [+Infinity] is not finite, yet [onResults] compares it
    as above the threshold: kept up for more than three seconds it reports
    [Yawning] and raises the alert, where [analyzeFrame] says [isYawn] is
    false. *)
Lemma infinite_mouth_ratio_counts_as_yawn :
  let st := watching None (Some 1000) in
  let out := onResults (mkResults (Some [dazzledFrame])) (mkClock 0 4500) st in
  isFinite (mouthRatio dazzledFrame) = false /\
  mouthStatus (snd out) = Yawning /\
  alertRequired (snd out) = true /\
  isYawn (analyzeFrame dazzledFrame (calibration st)) = false.
Proof.
  cbv zeta.
  pose proof (onResults_detecting (mkResults (Some [dazzledFrame]))
                (mkClock 0 4500) (watching None (Some 1000)) dazzledFrame []
                eq_refl eq_refl) as Hstep.
  cbv zeta in Hstep. rewrite Hstep. clear Hstep.
  assert (Hyawn : isYawningOn dazzledFrame (watching None (Some 1000)) = true).
  { unfold isYawningOn. rewrite dazzled_mouthRatio. reflexivity. }
  rewrite Hyawn.
  cbn [snd mouthStatus alertRequired debounce sustained performanceNow
       watching openMouthStart].
  unfold SUSTAINED_DURATION_MS. real_test.
  rewrite orb_true_r.
  unfold analyzeFrame. cbn [isYawn].
  change (calculateMAR dazzledFrame MOUTH_POINTS) with (mouthRatio dazzledFrame).
  rewrite dazzled_mouthRatio. repeat split; reflexivity.
Qed.

(* ------------------------------------------------------------------ *)
(** * Further properties of the calibration accumulator *)
(* ------------------------------------------------------------------ *)

Lemma sampleOf_Some (landmarks : FaceLandmarks) (e m : R) :
  sampleOf landmarks = Some (e, m) <->
  averageEAR landmarks = Fin e /\ mouthRatio landmarks = Fin m.
Proof.
  unfold sampleOf. split.
  - destruct (averageEAR landmarks), (mouthRatio landmarks); intros H;
      try discriminate. inversion H. auto.
  - intros [He Hm]. rewrite He, Hm. reflexivity.
Qed.

Lemma sampleOf_None (landmarks : FaceLandmarks) :
  sampleOf landmarks = None <->
  isFinite (averageEAR landmarks) = false \/
  isFinite (mouthRatio landmarks) = false.
Proof.
  unfold sampleOf.
  destruct (averageEAR landmarks), (mouthRatio landmarks); cbn [isFinite];
    split; intros H; auto; try discriminate;
    destruct H; discriminate.
Qed.

Lemma accumulate_rejected (landmarks : FaceLandmarks) (st : CalibrationState) :
  sampleOf landmarks = None -> accumulateCalibration landmarks st = st.
Proof.
  intros Hnone. apply sampleOf_None in Hnone.
  unfold accumulateCalibration.
  unfold averageEAR, mouthRatio, calculateEAR, calculateMAR in Hnone.
  destruct Hnone as [H|H]; rewrite H; cbn [negb orb];
    [reflexivity | rewrite orb_true_r; reflexivity].
Qed.





Lemma num_running_mean (b v : R) (n : nat) :
  num_add (Fin b) (num_div (num_sub (Fin v) (Fin b)) (num_of_nat (S n)))
  = Fin (b + (v - b) / INR (S n)).
Proof.
  assert (Hn : INR (S n) <> 0) by (apply not_0_INR; lia).
  unfold num_of_nat, num_sub. cbn [num_opp num_add].
  rewrite num_div_fin by assumption. cbn [num_add]. reflexivity.
Qed.











(* ------------------------------------------------------------------ *)
(** * Further properties of the ratios and thresholds *)
(* ------------------------------------------------------------------ *)

Lemma div_not_negative (a h : number) :
  not_negative a -> not_negative h ->
  num_eqb h (Fin 0) = false ->
  not_negative (num_div a h).
Proof.
  intros Ha Hh Hne. destruct h as [| | |r].
  - destruct a; exact I.
  - destruct a; cbn [num_div not_negative]; auto; try contradiction. lra.
  - destruct Hh.
  - cbn [num_eqb] in Hne. apply Reqb_false in Hne. cbn [not_negative] in Hh.
    apply div_pos_not_negative; [lra | assumption].
Qed.

Lemma calcMAR_not_negative (landmarks : FaceLandmarks)
  (mouthIndices : list nat) :
  not_negative (_calcMARFromMouth landmarks mouthIndices).
Proof.
  unfold _calcMARFromMouth.
  destruct (length mouthIndices <? 8)%nat; [exact I|].
  destruct (existsb is_null (map (fun i => getLM landmarks i) mouthIndices));
    [exact I|].
  destruct (map (fun i => getLM landmarks i) mouthIndices)
    as [|[u1|] [|[u2|] [|[l1|] [|[r1|] [|[r2|] [|[l2b|] [|[l3b|]
        [|[lCorner|] rest]]]]]]]];
    try exact I.
  destruct (num_eqb (dist2D lCorner r1) (Fin 0)) eqn:Hwidth; [exact I|].
  apply div_not_negative; try assumption.
  - apply div_pos_not_negative; [lra|].
    repeat apply add_not_negative; apply dist2D_not_negative.
  - apply dist2D_not_negative.
Qed.

Lemma not_negative_below (a threshold : number) :
  not_negative a -> num_ltb a threshold = true ->
  threshold = PInf \/ exists t, threshold = Fin t /\ 0 < t.
Proof.
  destruct a as [| | |r]; cbn [not_negative]; intros Hnn Hlt;
    try contradiction; destruct threshold as [| | |t]; try discriminate;
    auto.
  right. exists t. split; [reflexivity|].
  cbn [num_ltb] in Hlt. apply Rltb_true in Hlt. lra.
Qed.

(** X3. Whatever the frame and the index list, the eye ratio, the mouth
    ratio and the averaged eye ratio are [NaN], [+Infinity] or a finite
    number that is not negative.  So a frame can satisfy the eyes-closed
    condition only under a positive threshold: with a threshold of zero or
    less, no frame ever counts as eyes closed. *)
Theorem ratios_never_negative :
  (forall (landmarks : FaceLandmarks) (indices : list nat),
      not_negative (_calcEARFromEye landmarks indices) /\
      not_negative (_calcMARFromMouth landmarks indices)) /\
  (forall landmarks : FaceLandmarks,
      not_negative (averageEAR landmarks) /\
      not_negative (mouthRatio landmarks)) /\
  (forall (landmarks : FaceLandmarks) (st : HookState) (t : R),
      getCurrentEARThreshold (calibration st) = Fin t ->
      t <= 0 ->
      eyesClosedOn landmarks st = false).
Proof.
  split; [|split].
  - intros landmarks indices. split;
      [apply calcEAR_not_negative | apply calcMAR_not_negative].
  - intros landmarks. split;
      [apply averageEAR_not_negative | apply calcMAR_not_negative].
  - intros landmarks st t Hth Ht. unfold eyesClosedOn. rewrite Hth.
    destruct (num_ltb (averageEAR landmarks) (Fin t)) eqn:Hlt;
      [|reflexivity].
    destruct (not_negative_below _ _ (averageEAR_not_negative landmarks) Hlt)
      as [Hinf|(t' & Heq & Hpos)]; [discriminate|].
    inversion Heq; subst. lra.
Qed.

Lemma ratios_never_negative_witness :
  let st := mkHook (mkCalibration (Some (Fin 0)) (Some (Fin (3 / 10))) 5)
                   false None None false 0 in
  getCurrentEARThreshold (calibration st) = Fin (0 * (75 / 100)) /\
  0 * (75 / 100) <= 0 /\
  eyesClosedOn sleepyFrame st = false.
Proof.
  intros st.
  assert (Hth : getCurrentEARThreshold (calibration st) = Fin (0 * (75 / 100)))
    by reflexivity.
  assert (Hle : 0 * (75 / 100) <= 0) by lra.
  split; [exact Hth|]. split; [exact Hle|].
  exact (proj2 (proj2 ratios_never_negative) sleepyFrame st _ Hth Hle).
Defined.

Lemma running_mean_not_negative (b v : R) (n : nat) :
  0 <= b -> 0 <= v -> 0 <= b + (v - b) / INR (S n).
Proof.
  intros Hb Hv.
  assert (Hn : 0 <= INR n) by apply pos_INR.
  assert (Hs : 0 < INR (S n)) by (rewrite S_INR; lra).
  replace (b + (v - b) / INR (S n)) with ((b * INR n + v) / INR (S n)).
  - apply Rmult_le_pos.
    + apply Rplus_le_le_0_compat; [apply Rmult_le_pos|]; assumption.
    + left. apply Rinv_0_lt_compat. exact Hs.
  - rewrite S_INR in *. field. lra.
Qed.

Lemma sane_initial : baselines_sane initialCalibration.
Proof. split; intros b H; discriminate. Qed.

Lemma sane_accumulate (landmarks : FaceLandmarks) (st : CalibrationState) :
  baselines_sane st -> baselines_sane (accumulateCalibration landmarks st).
Proof.
  intros [Hear Hmar].
  destruct (sampleOf landmarks) as [[e m]|] eqn:Hs.
  - apply sampleOf_Some in Hs. destruct Hs as [He Hm].
    pose proof (averageEAR_not_negative landmarks) as Hen.
    pose proof (calcMAR_not_negative landmarks MOUTH_POINTS) as Hmn.
    fold (calculateMAR landmarks MOUTH_POINTS) in Hmn.
    fold (mouthRatio landmarks) in Hmn.
    rewrite He in Hen. rewrite Hm in Hmn. cbn [not_negative] in Hen, Hmn.
    rewrite (accumulate_finite landmarks st e m He Hm).
    split; cbn [earBaseline marBaseline]; intros b Hb.
    + destruct (earBaseline st) as [b0|] eqn:Hb0.
      * destruct (Hear b0 eq_refl) as (r & Hr & Hpos). subst b0.
        rewrite num_running_mean in Hb. inversion Hb; subst b.
        eexists. split; [reflexivity|].
        apply running_mean_not_negative; assumption.
      * inversion Hb; subst b. exists e. auto.
    + destruct (marBaseline st) as [b0|] eqn:Hb0.
      * destruct (Hmar b0 eq_refl) as (r & Hr & Hpos). subst b0.
        rewrite num_running_mean in Hb. inversion Hb; subst b.
        eexists. split; [reflexivity|].
        apply running_mean_not_negative; assumption.
      * inversion Hb; subst b. exists m. auto.
  - rewrite (accumulate_rejected landmarks st Hs). split; assumption.
Qed.

Lemma reachable_sane (st : CalibrationState) :
  calibration_reachable st -> baselines_sane st.
Proof.
  induction 1.
  - apply sane_initial.
  - apply sane_accumulate; assumption.
  - apply sane_initial.
Qed.













Lemma existsb_null_usable (landmarks : FaceLandmarks) (indices : list nat) :
  (forall i, In i indices -> getLM landmarks i <> None) ->
  existsb is_null (map (fun i => getLM landmarks i) indices) = false.
Proof.
  induction indices as [|i indices IH]; intros Hall; [reflexivity|].
  cbn [map existsb].
  destruct (getLM landmarks i) eqn:Hi.
  - cbn [is_null orb]. apply IH. intros j Hj. apply Hall. right. exact Hj.
  - exfalso. apply (Hall i); [left; reflexivity | exact Hi].
Qed.

(** X7. Index lists of the wrong length.  With fewer than six indices the
    eye ratio is [NaN] whatever the frame holds, and likewise the mouth
    ratio with fewer than eight.  Indices beyond the sixth (eighth) take no
    part in the formula: if their landmarks are usable the result is that of
    the first six (eight) alone, but a single unusable one among them turns
    the result into [NaN]. *)
Theorem index_lists_of_other_lengths (landmarks : FaceLandmarks) :
  (forall indices, (length indices < 6)%nat ->
                   _calcEARFromEye landmarks indices = NaN) /\
  (forall indices, (length indices < 8)%nat ->
                   _calcMARFromMouth landmarks indices = NaN) /\
  (forall i1 i2 i3 i4 i5 i6 more,
      (forall i, In i more -> getLM landmarks i <> None) ->
      _calcEARFromEye landmarks (i1 :: i2 :: i3 :: i4 :: i5 :: i6 :: more)
      = _calcEARFromEye landmarks [i1; i2; i3; i4; i5; i6]) /\
  (forall i1 i2 i3 i4 i5 i6 i7 i8 more,
      (forall i, In i more -> getLM landmarks i <> None) ->
      _calcMARFromMouth landmarks
        (i1 :: i2 :: i3 :: i4 :: i5 :: i6 :: i7 :: i8 :: more)
      = _calcMARFromMouth landmarks [i1; i2; i3; i4; i5; i6; i7; i8]) /\
  (forall i1 i2 i3 i4 i5 i6 more,
      (exists i, In i more /\ getLM landmarks i = None) ->
      _calcEARFromEye landmarks (i1 :: i2 :: i3 :: i4 :: i5 :: i6 :: more)
      = NaN).
Proof.
  split; [|split; [|split; [|split]]].
  - intros indices Hlen. unfold _calcEARFromEye.
    apply Nat.ltb_lt in Hlen. rewrite Hlen. reflexivity.
  - intros indices Hlen. unfold _calcMARFromMouth.
    apply Nat.ltb_lt in Hlen. rewrite Hlen. reflexivity.
  - intros i1 i2 i3 i4 i5 i6 more Hmore. unfold _calcEARFromEye.
    cbn [length Nat.ltb Nat.leb map existsb].
    rewrite (existsb_null_usable landmarks more Hmore).
    destruct (getLM landmarks i1), (getLM landmarks i2),
      (getLM landmarks i3), (getLM landmarks i4), (getLM landmarks i5),
      (getLM landmarks i6); reflexivity.
  - intros i1 i2 i3 i4 i5 i6 i7 i8 more Hmore. unfold _calcMARFromMouth.
    cbn [length Nat.ltb Nat.leb map existsb].
    rewrite (existsb_null_usable landmarks more Hmore).
    destruct (getLM landmarks i1), (getLM landmarks i2),
      (getLM landmarks i3), (getLM landmarks i4), (getLM landmarks i5),
      (getLM landmarks i6), (getLM landmarks i7), (getLM landmarks i8);
      reflexivity.
  - intros i1 i2 i3 i4 i5 i6 more (i & Hin & Hnone).
    apply calcEAR_missing. exists i. split; [|exact Hnone].
    do 6 right. exact Hin.
Qed.

Lemma index_lists_of_other_lengths_witness :
  (length [0; 1; 2; 3; 4]%nat < 6)%nat /\
  _calcEARFromEye exampleEye [0; 1; 2; 3; 4]%nat = NaN /\
  _calcEARFromEye exampleEye [0; 1; 2; 3; 4; 5; 0]%nat
  = _calcEARFromEye exampleEye [0; 1; 2; 3; 4; 5]%nat /\
  _calcEARFromEye exampleEye [0; 1; 2; 3; 4; 5; 6]%nat = NaN.
Proof.
  pose proof (index_lists_of_other_lengths exampleEye)
    as (Hshort & _ & Hmore & _ & Hbad).
  assert (Hlen : (length [0; 1; 2; 3; 4]%nat < 6)%nat) by (cbn; lia).
  split; [exact Hlen|]. split; [exact (Hshort _ Hlen)|]. split.
  - apply (Hmore 0 1 2 3 4 5 [0])%nat.
    intros i [Hi|[]]. subst i. discriminate.
  - apply (Hbad 0 1 2 3 4 5 [6])%nat.
    exists 6%nat. split; [left; reflexivity | reflexivity].
Defined.

(** X8. For eight usable mouth landmarks whose width [dist(lCorner, r1)] is
    not zero, the mouth ratio is the mean of the three heights
    [dist(u1,l1)], [dist(u2,l2b)], [dist(u1,l3b)] divided by that width.
    The fifth landmark [r2] must be usable but its position plays no part:
    two frames that differ only there have the same ratio. *)
Theorem mouth_ratio_is_formula :
  (forall (landmarks : FaceLandmarks) (i1 i2 i3 i4 i5 i6 i7 i8 : nat)
          (u1 u2 l1 r1 r2 l2b l3b lCorner : Pt),
      getLM landmarks i1 = Some u1 -> getLM landmarks i2 = Some u2 ->
      getLM landmarks i3 = Some l1 -> getLM landmarks i4 = Some r1 ->
      getLM landmarks i5 = Some r2 -> getLM landmarks i6 = Some l2b ->
      getLM landmarks i7 = Some l3b -> getLM landmarks i8 = Some lCorner ->
      num_eqb (dist2D lCorner r1) (Fin 0) = false ->
      _calcMARFromMouth landmarks [i1; i2; i3; i4; i5; i6; i7; i8] =
      num_div (num_div (num_add (num_add (dist2D u1 l1) (dist2D u2 l2b))
                                (dist2D u1 l3b)) (Fin 3))
              (dist2D lCorner r1)) /\
  (forall (landmarks other : FaceLandmarks) (i1 i2 i3 i4 i5 i6 i7 i8 : nat),
      getLM other i1 = getLM landmarks i1 ->
      getLM other i2 = getLM landmarks i2 ->
      getLM other i3 = getLM landmarks i3 ->
      getLM other i4 = getLM landmarks i4 ->
      getLM landmarks i5 <> None -> getLM other i5 <> None ->
      getLM other i6 = getLM landmarks i6 ->
      getLM other i7 = getLM landmarks i7 ->
      getLM other i8 = getLM landmarks i8 ->
      _calcMARFromMouth other [i1; i2; i3; i4; i5; i6; i7; i8]
      = _calcMARFromMouth landmarks [i1; i2; i3; i4; i5; i6; i7; i8]).
Proof.
  split.
  - intros landmarks i1 i2 i3 i4 i5 i6 i7 i8 u1 u2 l1 r1 r2 l2b l3b lCorner
           H1 H2 H3 H4 H5 H6 H7 H8 Hwidth.
    rewrite (calcMAR_eight _ _ _ _ _ _ _ _ _ _ _ _ _ _ _ _ _
               H1 H2 H3 H4 H5 H6 H7 H8).
    rewrite Hwidth. reflexivity.
  - intros landmarks other i1 i2 i3 i4 i5 i6 i7 i8
           E1 E2 E3 E4 N5 N5' E6 E7 E8.
    unfold _calcMARFromMouth. cbn [length Nat.ltb Nat.leb map existsb].
    rewrite E1, E2, E3, E4, E6, E7, E8.
    destruct (getLM landmarks i5) as [r2|]; [|congruence].
    destruct (getLM other i5) as [r2'|]; [|congruence].
    destruct (getLM landmarks i1), (getLM landmarks i2),
      (getLM landmarks i3), (getLM landmarks i4), (getLM landmarks i6),
      (getLM landmarks i7), (getLM landmarks i8); reflexivity.
Qed.

Lemma mouth_ratio_is_formula_witness :
  num_eqb (dist2D (mkPt (Fin 1) (Fin 0) JOther) (mkPt (Fin 0) (Fin 0) JOther))
          (Fin 0) = false /\
  _calcMARFromMouth attentiveFrame MOUTH_POINTS =
  num_div (num_div (num_add (num_add
             (dist2D (mkPt (Fin (5/10)) (Fin 0) JOther)
                     (mkPt (Fin (5/10)) (Fin (3/10)) JOther))
             (dist2D (mkPt (Fin (5/10)) (Fin 0) JOther)
                     (mkPt (Fin (5/10)) (Fin (3/10)) JOther)))
             (dist2D (mkPt (Fin (5/10)) (Fin 0) JOther)
                     (mkPt (Fin (5/10)) (Fin (3/10)) JOther))) (Fin 3))
          (dist2D (mkPt (Fin 1) (Fin 0) JOther) (mkPt (Fin 0) (Fin 0) JOther)) /\
  _calcMARFromMouth strayCornerFrame MOUTH_POINTS
  = _calcMARFromMouth attentiveFrame MOUTH_POINTS.
Proof.
  assert (Hwidth : num_eqb (dist2D (mkPt (Fin 1) (Fin 0) JOther)
                                   (mkPt (Fin 0) (Fin 0) JOther)) (Fin 0)
                   = false).
  { rewrite (dist2D_value 1 0 0 0 1) by lra. cbn [num_eqb].
    apply Reqb_false. lra. }
  split; [exact Hwidth|]. split.
  - unfold MOUTH_POINTS, attentiveFrame.
    apply (proj1 mouth_ratio_is_formula (frameOf attentiveTable 478)
             13 14 78 308 82 312 87 317 _ _ _ _
             (mkPt (Fin 0) (Fin 0) JOther))%nat;
      try (apply getLM_point; [lia | reflexivity]).
    exact Hwidth.
  - unfold MOUTH_POINTS, attentiveFrame, strayCornerFrame.
    apply (proj2 mouth_ratio_is_formula);
      rewrite ?getLM_frameOf by lia; try reflexivity; discriminate.
Defined.

(* ------------------------------------------------------------------ *)
(** * Further properties of the frame handler *)
(* ------------------------------------------------------------------ *)

Lemma hasFace_true (results : Results) :
  hasFace results = true <->
  exists landmarks others,
    multiFaceLandmarks results = Some (landmarks :: others).
Proof.
  unfold hasFace.
  destruct (multiFaceLandmarks results) as [[|lm others]|]; split;
    intros H; try discriminate; eauto;
    destruct H as (lm' & others' & H); discriminate.
Qed.

Lemma hasFace_false (results : Results) :
  hasFace results = false <->
  multiFaceLandmarks results = None \/ multiFaceLandmarks results = Some [].
Proof.
  unfold hasFace.
  destruct (multiFaceLandmarks results) as [[|lm others]|]; split;
    intros H; auto; try discriminate; destruct H; discriminate.
Qed.

(** X9. What one call of [onResults] can report, in any phase.  The alert
    is raised exactly when the eyes are [Drowsy] or the mouth is [Yawning].
    Both statuses are [Inactive] exactly when the frame shows no face, both
    are [Calibrating] exactly when it shows one while the phase flag is
    set, and otherwise the eyes are [Active] or [Drowsy] and the mouth
    [Active] or [Yawning].  The busy flag is always released. *)
Theorem handler_report_is_coherent
  (results : Results) (clk : Clock) (st : HookState) :
  let d := snd (onResults results clk st) in
  (alertRequired d = true <-> eyeStatus d = Drowsy \/ mouthStatus d = Yawning) /\
  (eyeStatus d = Inactive <-> hasFace results = false) /\
  (mouthStatus d = Inactive <-> hasFace results = false) /\
  (eyeStatus d = Calibrating <->
   hasFace results = true /\ calibrating st = true) /\
  (mouthStatus d = Calibrating <->
   hasFace results = true /\ calibrating st = true) /\
  (hasFace results = true -> calibrating st = false ->
   (eyeStatus d = Active \/ eyeStatus d = Drowsy) /\
   (mouthStatus d = Active \/ mouthStatus d = Yawning)) /\
  isProcessing (fst (onResults results clk st)) = false.
Proof.
  cbv zeta.
  destruct (onResults_cases results) as [Hnone|(lm & others & Hface)].
  - rewrite (onResults_no_face _ _ _ Hnone).
    apply hasFace_false in Hnone. rewrite Hnone.
    cbn [fst snd eyeStatus mouthStatus alertRequired isProcessing].
    repeat split; intros; try discriminate; try reflexivity;
      try (destruct H; discriminate).
  - assert (Hhas : hasFace results = true)
      by (apply hasFace_true; eauto).
    rewrite Hhas. destruct (calibrating st) eqn:Hcal.
    + rewrite (onResults_calibrating _ _ _ _ _ Hface Hcal).
      cbn [fst snd eyeStatus mouthStatus alertRequired isProcessing].
      repeat split; intros; try discriminate; try reflexivity;
        try (destruct H; discriminate).
    + pose proof (onResults_detecting _ clk _ _ _ Hface Hcal) as Hstep.
      cbv zeta in Hstep. rewrite Hstep.
      cbn [fst snd eyeStatus mouthStatus alertRequired isProcessing].
      destruct (sustained _ (debounce (eyesClosedOn lm st) _ _));
        destruct (sustained _ (debounce (isYawningOn lm st) _ _));
        cbn [orb];
        repeat split; intros; try discriminate; try reflexivity; auto;
        try (destruct H; discriminate).
Qed.

Lemma handler_report_is_coherent_witness :
  let d := snd (onResults (mkResults (Some [sleepyFrame])) (mkClock 0 4500)
                          (watching (Some 1000) None)) in
  hasFace (mkResults (Some [sleepyFrame])) = true /\
  calibrating (watching (Some 1000) None) = false /\
  (eyeStatus d = Active \/ eyeStatus d = Drowsy) /\
  (mouthStatus d = Active \/ mouthStatus d = Yawning).
Proof.
  intros d.
  destruct (handler_report_is_coherent (mkResults (Some [sleepyFrame]))
              (mkClock 0 4500) (watching (Some 1000) None))
    as (_ & _ & _ & _ & _ & Hshape & _).
  split; [reflexivity|]. split; [reflexivity|].
  exact (Hshape eq_refl eq_refl).
Defined.

Lemma handler_output_not_calibrating (results : Results) (clk : Clock)
  (st : HookState) :
  calibrating st = false ->
  eyeStatus (snd (onResults results clk st)) <> Calibrating /\
  mouthStatus (snd (onResults results clk st)) <> Calibrating.
Proof.
  intros Hcal.
  destruct (onResults_cases results) as [Hnone|(lm & others & Hface)].
  - rewrite (onResults_no_face _ _ _ Hnone). split; discriminate.
  - pose proof (onResults_detecting _ clk _ _ _ Hface Hcal) as Hstep.
    cbv zeta in Hstep. rewrite Hstep. cbn [snd eyeStatus mouthStatus].
    split; match goal with
           | |- (if ?c then _ else _) <> _ => destruct c; discriminate
           end.
Qed.

(** X10. Once the phase flag is cleared, no sequence of frames sets it
    again or touches the calibration state: the thresholds stay what they
    were when calibration ended, and no frame is reported [Calibrating]. *)
Theorem detection_never_recalibrates
  (frames : list (Results * Clock)) (st : HookState) :
  calibrating st = false ->
  calibration (fst (runFrames frames st)) = calibration st /\
  calibrating (fst (runFrames frames st)) = false /\
  getCurrentEARThreshold (calibration (fst (runFrames frames st)))
    = getCurrentEARThreshold (calibration st) /\
  getCurrentMARThreshold (calibration (fst (runFrames frames st)))
    = getCurrentMARThreshold (calibration st) /\
  Forall (fun d => eyeStatus d <> Calibrating /\ mouthStatus d <> Calibrating)
         (snd (runFrames frames st)).
Proof.
  revert st. induction frames as [|[r c] frames IH]; intros st Hcal.
  - cbn [runFrames fst snd]. repeat split; auto.
  - assert (Hcal1 : calibrating (fst (onResults r c st)) = false)
      by (apply onResults_stays_detecting; exact Hcal).
    assert (Hsame : calibration (fst (onResults r c st)) = calibration st).
    { destruct (onResults_cases r) as [Hnone|(lm & others & Hface)].
      - rewrite (onResults_no_face _ _ _ Hnone). reflexivity.
      - pose proof (onResults_detecting _ c _ _ _ Hface Hcal) as Hstep.
        cbv zeta in Hstep. rewrite Hstep. reflexivity. }
    destruct (IH _ Hcal1) as (Hc & Hf & _ & _ & Hall).
    rewrite runFrames_cons, runFrames_step.
    rewrite Hc, Hsame.
    split; [reflexivity|]. split; [exact Hf|].
    split; [reflexivity|]. split; [reflexivity|].
    constructor; [|exact Hall].
    pose proof (handler_output_not_calibrating r c st Hcal) as Hd.
    exact Hd.
Qed.

Lemma detection_never_recalibrates_witness :
  let frames := [(mkResults (Some [sleepyFrame]), mkClock 0 1000);
                 (mkResults None, mkClock 0 2000);
                 (mkResults (Some [attentiveFrame]), mkClock 0 3000)] in
  calibrating (watching None None) = false /\
  calibration (fst (runFrames frames (watching None None)))
    = mkCalibration (Some (Fin (45 / 100))) (Some (Fin (3 / 10))) 5.
Proof.
  intros frames.
  split; [reflexivity|].
  exact (proj1 (detection_never_recalibrates frames (watching None None)
                  eq_refl)).
Defined.

Lemma accumulate_count (landmarks : FaceLandmarks) (st : CalibrationState) :
  (calibrationSamples st
   <= calibrationSamples (accumulateCalibration landmarks st)
   <= S (calibrationSamples st))%nat.
Proof.
  unfold accumulateCalibration.
  match goal with |- context [if ?c then _ else _] => destruct c end;
    cbn [calibrationSamples]; lia.
Qed.

Lemma onResults_count (results : Results) (clk : Clock) (st : HookState) :
  (calibrationSamples (calibration st)
   <= calibrationSamples (calibration (fst (onResults results clk st)))
   <= calibrationSamples (calibration st)
      + (if hasFace results then 1 else 0))%nat.
Proof.
  destruct (onResults_cases results) as [Hnone|(lm & others & Hface)].
  - rewrite (onResults_no_face _ _ _ Hnone). cbn [fst calibration]. lia.
  - assert (Hhas : hasFace results = true)
      by (apply hasFace_true; eauto).
    rewrite Hhas. destruct (calibrating st) eqn:Hcal.
    + rewrite (onResults_calibrating _ _ _ _ _ Hface Hcal).
      cbn [fst calibration].
      pose proof (accumulate_count lm (calibration st)). lia.
    + pose proof (onResults_detecting _ clk _ _ _ Hface Hcal) as Hstep.
      cbv zeta in Hstep. rewrite Hstep. cbn [fst calibration]. lia.
Qed.

Lemma runFrames_count (frames : list (Results * Clock)) (st : HookState) :
  (calibrationSamples (calibration st)
   <= calibrationSamples (calibration (fst (runFrames frames st)))
   <= calibrationSamples (calibration st) + faceCount frames)%nat.
Proof.
  revert st. induction frames as [|[r c] frames IH]; intros st.
  - cbn [runFrames fst faceCount filter length]. lia.
  - rewrite runFrames_cons.
    pose proof (onResults_count r c st) as Hone.
    pose proof (IH (fst (onResults r c st))) as Hrest.
    unfold faceCount in *. cbn [filter fst].
    destruct (hasFace r); cbn [length]; lia.
Qed.

Lemma onResults_reachable (results : Results) (clk : Clock) (st : HookState) :
  calibration_reachable (calibration st) ->
  calibration_reachable (calibration (fst (onResults results clk st))).
Proof.
  intros Hreach.
  destruct (onResults_cases results) as [Hnone|(lm & others & Hface)].
  - rewrite (onResults_no_face _ _ _ Hnone). exact Hreach.
  - destruct (calibrating st) eqn:Hcal.
    + rewrite (onResults_calibrating _ _ _ _ _ Hface Hcal).
      cbn [fst calibration]. apply reach_accumulate. exact Hreach.
    + pose proof (onResults_detecting _ clk _ _ _ Hface Hcal) as Hstep.
      cbv zeta in Hstep. rewrite Hstep. exact Hreach.
Qed.

Lemma runFrames_reachable (frames : list (Results * Clock)) (st : HookState) :
  calibration_reachable (calibration st) ->
  calibration_reachable (calibration (fst (runFrames frames st))).
Proof.
  revert st. induction frames as [|[r c] frames IH]; intros st Hreach.
  - exact Hreach.
  - rewrite runFrames_cons. apply IH, onResults_reachable, Hreach.
Qed.

(** X11. During a session the sample count never decreases and grows by at
    most one per frame that shows a face.  After [startDetection] the
    calibration state is a reachable one whatever the hook held before, so
    a session that has seen fewer than five faces still uses the static
    thresholds 0.41 and 0.80. *)
Theorem session_sample_count :
  (forall (frames : list (Results * Clock)) (st : HookState),
      (calibrationSamples (calibration st)
       <= calibrationSamples (calibration (fst (runFrames frames st)))
       <= calibrationSamples (calibration st) + faceCount frames)%nat) /\
  (forall (today : R) (st0 : HookState) (frames : list (Results * Clock)),
      let st := fst (runFrames frames (startDetection today st0)) in
      calibration_reachable (calibration st) /\
      (calibrationSamples (calibration st) <= faceCount frames)%nat /\
      ((faceCount frames < 5)%nat ->
       getCurrentEARThreshold (calibration st) = Fin (41 / 100) /\
       getCurrentMARThreshold (calibration st) = Fin (80 / 100))).
Proof.
  split; [apply runFrames_count|].
  intros today st0 frames st.
  assert (Hcount : (calibrationSamples (calibration st) <= faceCount frames)%nat).
  { pose proof (runFrames_count frames (startDetection today st0)) as H.
    cbn [startDetection calibration resetCalibration calibrationSamples] in H.
    unfold st. lia. }
  split; [|split].
  - unfold st. apply runFrames_reachable.
    cbn [startDetection calibration resetCalibration]. apply reach_initial.
  - exact Hcount.
  - intros Hfew. apply uncalibrated_thresholds. lia.
Qed.

Lemma session_sample_count_witness :
  let frames := [(mkResults (Some [attentiveFrame]), mkClock 100 100);
                 (mkResults None, mkClock 200 200);
                 (mkResults (Some [attentiveFrame]), mkClock 300 300)] in
  let st := fst (runFrames frames (startDetection 0 (watching None None))) in
  (faceCount frames < 5)%nat /\
  getCurrentEARThreshold (calibration st) = Fin (41 / 100) /\
  getCurrentMARThreshold (calibration st) = Fin (80 / 100).
Proof.
  intros frames st.
  assert (Hfew : (faceCount frames < 5)%nat) by (cbn; lia).
  split; [exact Hfew|].
  exact (proj2 (proj2 (proj2 session_sample_count 0 (watching None None)
                         frames)) Hfew).
Defined.

Lemma onResults_keeps_start_times (results : Results) (clk : Clock)
  (st : HookState) :
  hasFace results = false \/ calibrating st = true ->
  closedEyeStart (fst (onResults results clk st)) = closedEyeStart st /\
  openMouthStart (fst (onResults results clk st)) = openMouthStart st.
Proof.
  intros Hquiet.
  destruct (onResults_cases results) as [Hnone|(lm & others & Hface)].
  - rewrite (onResults_no_face _ _ _ Hnone). split; reflexivity.
  - destruct Hquiet as [Hno|Hcal].
    + assert (Hhas : hasFace results = true)
        by (apply hasFace_true; eauto).
      congruence.
    + rewrite (onResults_calibrating _ _ _ _ _ Hface Hcal).
      split; reflexivity.
Qed.

Lemma runFrames_no_face (gap : list (Results * Clock)) (st : HookState) :
  (forall frame, In frame gap -> hasFace (fst frame) = false) ->
  calibration (fst (runFrames gap st)) = calibration st /\
  calibrating (fst (runFrames gap st)) = calibrating st /\
  closedEyeStart (fst (runFrames gap st)) = closedEyeStart st /\
  openMouthStart (fst (runFrames gap st)) = openMouthStart st.
Proof.
  revert st. induction gap as [|[r c] gap IH]; intros st Hgap.
  - repeat split; reflexivity.
  - rewrite runFrames_cons.
    assert (Hno : hasFace r = false) by (apply (Hgap (r, c)); left; reflexivity).
    apply hasFace_false in Hno.
    destruct (IH (fst (onResults r c st))) as (Hc & Hf & He & Hm).
    { intros frame Hin. apply Hgap. right. exact Hin. }
    rewrite Hc, Hf, He, Hm. rewrite (onResults_no_face _ _ _ Hno).
    repeat split; reflexivity.
Qed.

(** X12. Frames without a face do not interrupt a streak.  If the eyes were
    recorded closed since [t], then after any number of frames without a
    face, the first frame that shows closed eyes again more than 3000 ms
    after [t] is reported [Drowsy] with the alert, although no closed eye
    was seen in between. *)
Theorem face_loss_keeps_the_streak
  (st : HookState) (gap : list (Results * Clock))
  (results : Results) (clk : Clock)
  (landmarks : FaceLandmarks) (others : list FaceLandmarks) (t : R) :
  calibrating st = false ->
  closedEyeStart st = Some t ->
  (forall frame, In frame gap -> hasFace (fst frame) = false) ->
  multiFaceLandmarks results = Some (landmarks :: others) ->
  eyesClosedOn landmarks st = true ->
  SUSTAINED_DURATION_MS < performanceNow clk - t ->
  let out := onResults results clk (fst (runFrames gap st)) in
  closedEyeStart (fst out) = Some t /\
  eyeStatus (snd out) = Drowsy /\
  alertRequired (snd out) = true.
Proof.
  intros Hcal Hstart Hgap Hface Hshut Hlong out.
  destruct (runFrames_no_face gap st Hgap) as (Hc & Hf & He & _).
  assert (Hcal' : calibrating (fst (runFrames gap st)) = false)
    by (rewrite Hf; exact Hcal).
  pose proof (onResults_detecting _ clk _ _ _ Hface Hcal') as Hstep.
  cbv zeta in Hstep. unfold out. rewrite Hstep.
  assert (Hshut' : eyesClosedOn landmarks (fst (runFrames gap st)) = true).
  { unfold eyesClosedOn in *. rewrite Hc. exact Hshut. }
  rewrite Hshut', He, Hstart.
  cbn [fst snd closedEyeStart eyeStatus alertRequired debounce sustained].
  apply Rltb_true in Hlong. rewrite Hlong. repeat split; reflexivity.
Qed.

Lemma face_loss_keeps_the_streak_witness :
  let gap := [(mkResults None, mkClock 0 2000);
              (mkResults (Some []), mkClock 0 3000)] in
  let out := onResults (mkResults (Some [sleepyFrame])) (mkClock 0 4500)
                       (fst (runFrames gap (watching (Some 1000) None))) in
  SUSTAINED_DURATION_MS < performanceNow (mkClock 0 4500) - 1000 /\
  eyeStatus (snd out) = Drowsy /\
  alertRequired (snd out) = true.
Proof.
  intros gap out.
  assert (Hlong : SUSTAINED_DURATION_MS < performanceNow (mkClock 0 4500) - 1000)
    by (unfold SUSTAINED_DURATION_MS; cbn [performanceNow]; lra).
  split; [exact Hlong|].
  refine (proj2 (face_loss_keeps_the_streak (watching (Some 1000) None) gap
                   (mkResults (Some [sleepyFrame])) (mkClock 0 4500)
                   sleepyFrame [] 1000 eq_refl eq_refl _ eq_refl
                   (sleepy_eyes_closed _ _) Hlong)).
  intros frame [H|[H|[]]]; subst frame; reflexivity.
Defined.

Lemma runFrames_calibrating_keeps (frames : list (Results * Clock))
  (st : HookState) :
  calibrating st = true ->
  (forall r c, In (r, c) frames ->
               dateNow c - calibrationStart st <= CALIBRATION_WINDOW_MS) ->
  closedEyeStart (fst (runFrames frames st)) = closedEyeStart st /\
  openMouthStart (fst (runFrames frames st)) = openMouthStart st.
Proof.
  revert st. induction frames as [|[r c] frames IH]; intros st Hcal Hearly.
  - split; reflexivity.
  - rewrite runFrames_cons.
    destruct (onResults_keeps_start_times r c st (or_intror Hcal)) as [He Hm].
    destruct (IH (fst (onResults r c st))) as [He' Hm'].
    + apply onResults_stays_calibrating; [exact Hcal|].
      apply (Hearly r c). left. reflexivity.
    + intros r' c' Hin. rewrite onResults_calibrationStart.
      apply (Hearly r' c'). right. exact Hin.
    + rewrite He', Hm', He, Hm. split; reflexivity.
Qed.

Lemma recorded_start_fires (results : Results) (clk : Clock) (st : HookState)
  (landmarks : FaceLandmarks) (others : list FaceLandmarks) (t : R) :
  calibrating st = false ->
  closedEyeStart st = Some t ->
  multiFaceLandmarks results = Some (landmarks :: others) ->
  eyesClosedOn landmarks st = true ->
  SUSTAINED_DURATION_MS < performanceNow clk - t ->
  eyeStatus (snd (onResults results clk st)) = Drowsy /\
  alertRequired (snd (onResults results clk st)) = true.
Proof.
  intros Hcal Hstart Hface Hshut Hlong.
  pose proof (onResults_detecting _ clk _ _ _ Hface Hcal) as Hstep.
  cbv zeta in Hstep. rewrite Hstep. rewrite Hshut, Hstart.
  cbn [snd eyeStatus alertRequired debounce sustained].
  apply Rltb_true in Hlong. rewrite Hlong. split; reflexivity.
Qed.

(** X13. [startDetection] does not clear the two start times, and no frame
    of the calibration phase touches them: a new session enters its
    detection phase with the start times the previous session left.  So
    when the previous session ended on closed eyes recorded at [t], the
    first detection frame of the new session that shows closed eyes more
    than 3000 ms after [t] is reported [Drowsy] at once. *)
Theorem start_times_survive_a_restart
  (today : R) (st0 : HookState) (frames : list (Results * Clock)) :
  (forall r c, In (r, c) frames ->
               dateNow c - today <= CALIBRATION_WINDOW_MS) ->
  let st := fst (runFrames frames (startDetection today st0)) in
  closedEyeStart st = closedEyeStart st0 /\
  openMouthStart st = openMouthStart st0 /\
  (forall (late : Results) (lateClk : Clock)
          (lateLandmarks : FaceLandmarks) (lateOthers : list FaceLandmarks)
          (results : Results) (clk : Clock)
          (landmarks : FaceLandmarks) (others : list FaceLandmarks) (t : R),
      multiFaceLandmarks late = Some (lateLandmarks :: lateOthers) ->
      CALIBRATION_WINDOW_MS < dateNow lateClk - today ->
      closedEyeStart st0 = Some t ->
      multiFaceLandmarks results = Some (landmarks :: others) ->
      eyesClosedOn landmarks (fst (onResults late lateClk st)) = true ->
      SUSTAINED_DURATION_MS < performanceNow clk - t ->
      eyeStatus (snd (onResults results clk (fst (onResults late lateClk st))))
        = Drowsy /\
      alertRequired
        (snd (onResults results clk (fst (onResults late lateClk st))))
        = true).
Proof.
  intros Hearly st.
  assert (Hcal : calibrating st = true).
  { unfold st. apply runFrames_stays_calibrating; [reflexivity|].
    exact Hearly. }
  destruct (runFrames_calibrating_keeps frames (startDetection today st0)
              eq_refl Hearly) as [He Hm].
  cbn [startDetection closedEyeStart openMouthStart] in He, Hm.
  split; [exact He|]. split; [exact Hm|].
  intros late lateClk lateLandmarks lateOthers results clk landmarks others t
         Hlate Helapsed Hstart Hface Hshut Hlong.
  apply (recorded_start_fires results clk _ landmarks others t);
    try assumption.
  - eapply late_face_ends_calibration; [exact Hlate|].
    unfold st. rewrite runFrames_calibrationStart. exact Helapsed.
  - destruct (onResults_keeps_start_times late lateClk st (or_intror Hcal))
      as [He' _].
    rewrite He'. fold st in He. rewrite He. exact Hstart.
Qed.

Lemma start_times_survive_a_restart_witness :
  let frames := [(mkResults (Some [attentiveFrame]), mkClock 500 9500);
                 (mkResults None, mkClock 1500 10500)] in
  let st := fst (runFrames frames
                   (startDetection 0 (watching (Some 1000) (Some 2000)))) in
  closedEyeStart st = Some 1000 /\ openMouthStart st = Some 2000.
Proof.
  intros frames st.
  assert (Hearly : forall r c, In (r, c) frames ->
                               dateNow c - 0 <= CALIBRATION_WINDOW_MS).
  { intros r c [H|[H|[]]]; inversion H; subst;
      unfold CALIBRATION_WINDOW_MS; cbn [dateNow]; lra. }
  destruct (start_times_survive_a_restart 0 (watching (Some 1000) (Some 2000))
              frames Hearly) as (He & Hm & _).
  split; [exact He | exact Hm].
Defined.

Lemma eyesShutFrame_same_calibration (st st' : HookState)
  (frame : Results * Clock) :
  calibration st' = calibration st ->
  eyesShutFrame st frame -> eyesShutFrame st' frame.
Proof.
  intros Hc (lm & others & Hface & Hshut).
  exists lm, others. split; [exact Hface|].
  unfold eyesClosedOn in *. rewrite Hc. exact Hshut.
Qed.

Lemma shut_step (st : HookState) (results : Results) (clk : Clock) :
  calibrating st = false ->
  eyesShutFrame st (results, clk) ->
  let start := match closedEyeStart st with
               | Some t => t
               | None => performanceNow clk
               end in
  calibrating (fst (onResults results clk st)) = false /\
  calibration (fst (onResults results clk st)) = calibration st /\
  closedEyeStart (fst (onResults results clk st)) = Some start /\
  (eyeStatus (snd (onResults results clk st)) = Drowsy <->
   SUSTAINED_DURATION_MS < performanceNow clk - start).
Proof.
  intros Hcal (lm & others & Hface & Hshut) start. cbn [fst] in Hface.
  pose proof (onResults_detecting _ clk _ _ _ Hface Hcal) as Hstep.
  cbv zeta in Hstep. rewrite Hstep. rewrite Hshut.
  cbn [fst snd calibrating calibration closedEyeStart eyeStatus debounce].
  split; [reflexivity|]. split; [reflexivity|].
  assert (Hdeb : match closedEyeStart st with
                 | Some t => Some t
                 | None => Some (performanceNow clk)
                 end = Some start)
    by (unfold start; destruct (closedEyeStart st); reflexivity).
  rewrite Hdeb. split; [reflexivity|].
  cbn [sustained]. rewrite <- Rltb_true.
  destruct (Rltb SUSTAINED_DURATION_MS (performanceNow clk - start));
    split; intros H; try reflexivity; discriminate.
Qed.

(** X14. A run of frames that all show closed eyes, in the detection phase.
    The start time stays the one recorded before the run or, when none was
    recorded, the timestamp of the run's first frame; and each frame of the
    run is reported [Drowsy] exactly when its timestamp is more than
    3000 ms past that start.  In particular the frame that opens a streak
    is never [Drowsy]. *)
Theorem closed_eyes_streak
  (before : list (Results * Clock)) (st : HookState)
  (results : Results) (clk : Clock) :
  calibrating st = false ->
  Forall (eyesShutFrame st) (before ++ [(results, clk)]) ->
  let start := match closedEyeStart st with
               | Some t => t
               | None => performanceNow (snd (hd (results, clk) before))
               end in
  let out := onResults results clk (fst (runFrames before st)) in
  closedEyeStart (fst out) = Some start /\
  (eyeStatus (snd out) = Drowsy <->
   SUSTAINED_DURATION_MS < performanceNow clk - start) /\
  (before = [] -> closedEyeStart st = None -> eyeStatus (snd out) = Active).
Proof.
  revert st. induction before as [|[r c] before IH]; intros st Hcal Hall.
  - cbn [app] in Hall. inversion Hall as [|? ? Hshut _]; subst.
    cbn [hd snd runFrames fst].
    destruct (shut_step st results clk Hcal Hshut) as (_ & _ & Hstart & Hiff).
    split; [exact Hstart|]. split; [exact Hiff|].
    intros _ Hnone. rewrite Hnone in Hiff.
    destruct (onResults_cases results) as [Hno|(lm & others & Hface)].
    + destruct Hshut as (lm & others & Hface & _). cbn [fst] in Hface.
      destruct Hno as [Hno|Hno]; rewrite Hno in Hface; discriminate.
    + pose proof (onResults_detecting _ clk _ _ _ Hface Hcal) as Hstep.
      cbv zeta in Hstep. rewrite Hstep in Hiff |- *.
      cbn [snd eyeStatus] in Hiff |- *.
      match goal with
      | |- (if ?b then _ else _) = _ => destruct b; [|reflexivity]
      end.
      exfalso. assert (H : Drowsy = Drowsy) by reflexivity.
      apply Hiff in H. unfold SUSTAINED_DURATION_MS in H. lra.
  - cbn [app] in Hall. inversion Hall as [|? ? Hshut Hrest]; subst.
    cbn [hd snd]. rewrite runFrames_cons.
    destruct (shut_step st r c Hcal Hshut) as (Hcal1 & Hc1 & Hstart1 & _).
    assert (Hrest1 : Forall (eyesShutFrame (fst (onResults r c st)))
                            (before ++ [(results, clk)])).
    { eapply Forall_impl; [|exact Hrest].
      intros frame. apply eyesShutFrame_same_calibration. exact Hc1. }
    destruct (IH _ Hcal1 Hrest1) as (Hs & Hiff & _).
    rewrite Hstart1 in Hs, Hiff.
    split; [exact Hs|]. split; [exact Hiff|]. intros H. discriminate.
Qed.

Lemma closed_eyes_streak_witness :
  let sleepy := mkResults (Some [sleepyFrame]) in
  let before := [(sleepy, mkClock 0 1000); (sleepy, mkClock 0 2500)] in
  let out := onResults sleepy (mkClock 0 4001)
                       (fst (runFrames before (watching None None))) in
  Forall (eyesShutFrame (watching None None))
         (before ++ [(sleepy, mkClock 0 4001)]) /\
  closedEyeStart (fst out) = Some 1000 /\
  eyeStatus (snd out) = Drowsy.
Proof.
  intros sleepy before out.
  assert (Hall : Forall (eyesShutFrame (watching None None))
                        (before ++ [(sleepy, mkClock 0 4001)])).
  { unfold before. cbn [app].
    repeat constructor; exists sleepyFrame, [];
      (split; [reflexivity | apply sleepy_eyes_closed]). }
  destruct (closed_eyes_streak before (watching None None) sleepy
              (mkClock 0 4001) eq_refl Hall) as (Hs & Hiff & _).
  split; [exact Hall|]. split; [exact Hs|].
  apply Hiff. unfold SUSTAINED_DURATION_MS. cbn [performanceNow snd hd].
  unfold before. cbn [closedEyeStart watching hd snd performanceNow]. lra.
Defined.

(* ------------------------------------------------------------------ *)
(** * [analyzeFrame] against the handler, and the display *)
(* ------------------------------------------------------------------ *)

Lemma average_of_equal (e : number) :
  not_negative e ->
  num_ltb (num_div (num_add e e) (Fin 2)) = num_ltb e.
Proof.
  destruct e as [| | |r]; cbn [not_negative num_add num_div]; intros Hnn;
    try contradiction; try reflexivity.
  - replace (Rltb 2 0) with false by (symmetry; apply Rltb_false; lra).
    reflexivity.
  - replace (Reqb 2 0) with false by (symmetry; apply Reqb_false; lra).
    replace ((r + r) / 2) with r by field. reflexivity.
Qed.

(** X15. [analyzeFrame] and the handler judge a frame alike, up to two
    differences.  For the mouth they agree whenever the ratio is finite, a
    yawn seen by [analyzeFrame] is one for the handler, and the only frames
    on which the handler sees a yawn that [analyzeFrame] does not are those
    with a mouth ratio of [+Infinity].  For the eyes [analyzeFrame] looks at
    the left eye only; when both eyes have the same ratio it agrees with
    the handler's test on the average. *)
Theorem analyzeFrame_against_handler
  (landmarks : FaceLandmarks) (st : HookState) :
  let m := analyzeFrame landmarks (calibration st) in
  (isYawn m = true -> isYawningOn landmarks st = true) /\
  (isFinite (mouthRatio landmarks) = true ->
   isYawn m = isYawningOn landmarks st) /\
  (isYawn m = false -> isYawningOn landmarks st = true ->
   mouthRatio landmarks = PInf) /\
  (calculateEAR landmarks LEFT_EYE_POINTS
   = calculateEAR landmarks RIGHT_EYE_POINTS ->
   isEyesClosed m = eyesClosedOn landmarks st) /\
  (isEyesClosed m = true ->
   isFinite (calculateEAR landmarks LEFT_EYE_POINTS) = true /\
   num_ltb (calculateEAR landmarks LEFT_EYE_POINTS)
           (getCurrentEARThreshold (calibration st)) = true).
Proof.
  cbv zeta. unfold analyzeFrame, isYawningOn, eyesClosedOn, averageEAR.
  cbn [isYawn isEyesClosed].
  fold (mouthRatio landmarks).
  pose proof (calcMAR_not_negative landmarks MOUTH_POINTS) as Hmn.
  fold (calculateMAR landmarks MOUTH_POINTS) in Hmn.
  fold (mouthRatio landmarks) in Hmn.
  pose proof (calcEAR_not_negative landmarks LEFT_EYE_POINTS) as Hen.
  fold (calculateEAR landmarks LEFT_EYE_POINTS) in Hen.
  split; [|split; [|split; [|split]]].
  - destruct (isFinite (mouthRatio landmarks)); [auto | discriminate].
  - intros Hfin. rewrite Hfin. reflexivity.
  - destruct (mouthRatio landmarks) as [| | |r] eqn:Hm;
      cbn [isFinite not_negative] in *; intros Hno Hyes.
    + rewrite nan_not_above in Hyes. discriminate.
    + reflexivity.
    + contradiction.
    + congruence.
  - intros Hsame. rewrite <- Hsame.
    rewrite (average_of_equal _ Hen).
    destruct (calculateEAR landmarks LEFT_EYE_POINTS) as [| | |r] eqn:He;
      cbn [isFinite not_negative] in *; try reflexivity; try contradiction.
    destruct (getCurrentEARThreshold (calibration st)); reflexivity.
  - destruct (isFinite (calculateEAR landmarks LEFT_EYE_POINTS));
      [auto | discriminate].
Qed.

Lemma analyzeFrame_against_handler_witness :
  let st := watching None None in
  (calculateEAR attentiveFrame LEFT_EYE_POINTS
   = calculateEAR attentiveFrame RIGHT_EYE_POINTS /\
   isEyesClosed (analyzeFrame attentiveFrame (calibration st))
   = eyesClosedOn attentiveFrame st) /\
  (isFinite (mouthRatio sleepyFrame) = true /\
   isYawn (analyzeFrame sleepyFrame (calibration st))
   = isYawningOn sleepyFrame st).
Proof.
  intros st.
  assert (Hsame : calculateEAR attentiveFrame LEFT_EYE_POINTS
                  = calculateEAR attentiveFrame RIGHT_EYE_POINTS).
  { unfold calculateEAR, LEFT_EYE_POINTS, RIGHT_EYE_POINTS, attentiveFrame.
    rewrite !open_eye_ratio by (apply getLM_point; [lia | reflexivity]).
    reflexivity. }
  assert (Hfin : isFinite (mouthRatio sleepyFrame) = true)
    by (rewrite sleepy_mouthRatio; reflexivity).
  split.
  - split; [exact Hsame|].
    exact (proj1 (proj2 (proj2 (proj2
             (analyzeFrame_against_handler attentiveFrame st)))) Hsame).
  - split; [exact Hfin|].
    exact (proj1 (proj2 (analyzeFrame_against_handler sleepyFrame st)) Hfin).
Defined.

Lemma handler_report_shapes (results : Results) (clk : Clock)
  (st : HookState) :
  snd (onResults results clk st) = mkDetection Inactive Inactive false \/
  snd (onResults results clk st) = mkDetection Calibrating Calibrating false \/
  exists drowsy yawning : bool,
    snd (onResults results clk st)
    = mkDetection (if drowsy then Drowsy else Active)
                  (if yawning then Yawning else Active)
                  (drowsy || yawning).
Proof.
  destruct (onResults_cases results) as [Hnone|(lm & others & Hface)].
  - left. rewrite (onResults_no_face _ _ _ Hnone). reflexivity.
  - right. destruct (calibrating st) eqn:Hcal.
    + left. rewrite (onResults_calibrating _ _ _ _ _ Hface Hcal). reflexivity.
    + right. pose proof (onResults_detecting _ clk _ _ _ Hface Hcal) as Hstep.
      cbv zeta in Hstep. rewrite Hstep. cbn [snd]. eauto.
Qed.

Lemma status_colors (status : String.string) :
  (StatusCard.getStatusColor status = "bg-green-500"%string <->
   status = "Active"%string) /\
  (StatusCard.getStatusColor status = "bg-red-500 animate-pulse"%string <->
   status = "Drowsy"%string \/ status = "Yawning"%string) /\
  (StatusCard.getTextColor status = "text-green-400"%string <->
   status = "Active"%string) /\
  (StatusCard.getTextColor status = "text-red-400"%string <->
   status = "Drowsy"%string \/ status = "Yawning"%string).
Proof.
  unfold StatusCard.getStatusColor, StatusCard.getTextColor.
  destruct (String.eqb_spec status "Active") as [Ha|Ha].
  - subst status. cbn.
    repeat split; intros H; try reflexivity; try discriminate;
      destruct H; discriminate.
  - destruct (String.eqb_spec status "Drowsy") as [Hd|Hd].
    + subst status. cbn.
      repeat split; intros H; try reflexivity; try discriminate; auto.
    + destruct (String.eqb_spec status "Yawning") as [Hy|Hy].
      * subst status. cbn.
        repeat split; intros H; try reflexivity; try discriminate; auto.
      * cbn [orb].
        repeat split; intros H; try discriminate; try contradiction;
          destruct H; contradiction.
Qed.

(** X16. The display follows the handler.  Whatever [onResults] reports,
    once [handleDetection] has stored it the alert banner and alarm are on
    exactly when one of the two status cards is red, the monitoring flag is
    as before, and a frame without a face or a calibration frame leaves
    both cards gray.  For every status string the card's dot and its text
    have the same colour: green for ['Active'] only, red for ['Drowsy'] and
    ['Yawning'] only, gray for anything else, ['Calibrating'] included.
    Stopping through [toggleMonitoring] always ends with gray cards and no
    alert. *)
Theorem display_follows_handler :
  (forall (results : Results) (clk : Clock) (st : HookState)
          (prev : App.DrowsinessState),
      let d := snd (onResults results clk st) in
      let shown := App.handleDetection (statusString (eyeStatus d))
                                       (statusString (mouthStatus d))
                                       (alertRequired d) prev in
      (App.alertActive shown = true <->
       StatusCard.getStatusColor (App.eyeStatus shown)
         = "bg-red-500 animate-pulse"%string \/
       StatusCard.getStatusColor (App.mouthStatus shown)
         = "bg-red-500 animate-pulse"%string) /\
      App.isMonitoring shown = App.isMonitoring prev /\
      (hasFace results = false \/ calibrating st = true ->
       StatusCard.getStatusColor (App.eyeStatus shown) = "bg-gray-500"%string /\
       StatusCard.getStatusColor (App.mouthStatus shown)
         = "bg-gray-500"%string)) /\
  (forall status : String.string,
      (StatusCard.getStatusColor status = "bg-green-500"%string <->
       status = "Active"%string) /\
      (StatusCard.getStatusColor status = "bg-red-500 animate-pulse"%string <->
       status = "Drowsy"%string \/ status = "Yawning"%string) /\
      (StatusCard.getTextColor status = "text-green-400"%string <->
       status = "Active"%string) /\
      (StatusCard.getTextColor status = "text-red-400"%string <->
       status = "Drowsy"%string \/ status = "Yawning"%string)) /\
  (forall state : App.DrowsinessState,
      App.isMonitoring state = true ->
      let stopped := fst (App.toggleMonitoring state) in
      snd (App.toggleMonitoring state) = true /\
      App.isMonitoring stopped = false /\
      App.alertActive stopped = false /\
      StatusCard.getStatusColor (App.eyeStatus stopped) = "bg-gray-500"%string /\
      StatusCard.getStatusColor (App.mouthStatus stopped)
        = "bg-gray-500"%string).
Proof.
  split; [|split].
  - intros results clk st prev. cbv zeta.
    unfold App.handleDetection.
    cbn [App.alertActive App.eyeStatus App.mouthStatus App.isMonitoring].
    split; [|split; [reflexivity|]].
    + destruct (handler_report_shapes results clk st)
        as [H|[H|(drowsy & yawning & H)]]; rewrite H;
        cbn [eyeStatus mouthStatus alertRequired statusString].
      * split; [discriminate|]. intros [Hc|Hc]; discriminate.
      * split; [discriminate|]. intros [Hc|Hc]; discriminate.
      * destruct drowsy, yawning; cbn;
          split; intros Hc; auto; try discriminate;
          destruct Hc; discriminate.
    + intros Hquiet.
      destruct (onResults_cases results) as [Hnone|(lm & others & Hface)].
      * rewrite (onResults_no_face _ _ _ Hnone). split; reflexivity.
      * destruct Hquiet as [Hno|Hcal].
        -- assert (Hhas : hasFace results = true)
             by (apply hasFace_true; eauto).
           congruence.
        -- rewrite (onResults_calibrating _ _ _ _ _ Hface Hcal).
           split; reflexivity.
  - apply status_colors.
  - intros state Hmon. unfold App.toggleMonitoring. rewrite Hmon.
    cbn. repeat split; reflexivity.
Qed.

Lemma display_follows_handler_witness :
  let state := App.handleDetection "Drowsy"%string "Active"%string true
                 (App.mkState "Inactive"%string "Inactive"%string true false) in
  App.isMonitoring state = true /\
  App.alertActive (fst (App.toggleMonitoring state)) = false /\
  StatusCard.getStatusColor (App.eyeStatus (fst (App.toggleMonitoring state)))
    = "bg-gray-500"%string.
Proof.
  intros state.
  destruct (proj2 (proj2 display_follows_handler) state eq_refl)
    as (_ & _ & Halert & Heye & _).
  split; [reflexivity|]. split; [exact Halert | exact Heye].
Defined.

(** X17. The two signals do not interfere.  What a frame does to the eye
    start time and the eye status depends on the calibration, the phase
    flag and the eye start time only, not on the mouth start time; and the
    same with eyes and mouth exchanged. *)
Theorem signals_do_not_interfere
  (results : Results) (clk : Clock) (st st' : HookState) :
  calibration st' = calibration st ->
  calibrating st' = calibrating st ->
  (closedEyeStart st' = closedEyeStart st ->
   closedEyeStart (fst (onResults results clk st'))
     = closedEyeStart (fst (onResults results clk st)) /\
   eyeStatus (snd (onResults results clk st'))
     = eyeStatus (snd (onResults results clk st))) /\
  (openMouthStart st' = openMouthStart st ->
   openMouthStart (fst (onResults results clk st'))
     = openMouthStart (fst (onResults results clk st)) /\
   mouthStatus (snd (onResults results clk st'))
     = mouthStatus (snd (onResults results clk st))).
Proof.
  intros Hc Hf.
  destruct (onResults_cases results) as [Hnone|(lm & others & Hface)].
  - rewrite !(onResults_no_face _ _ _ Hnone).
    cbn [fst snd closedEyeStart openMouthStart eyeStatus mouthStatus].
    split; intros H; split; auto.
  - destruct (calibrating st) eqn:Hcal.
    + rewrite (onResults_calibrating _ clk st _ _ Hface Hcal).
      rewrite (onResults_calibrating _ clk st' _ _ Hface Hf).
      cbn [fst snd closedEyeStart openMouthStart eyeStatus mouthStatus].
      split; intros H; split; auto.
    + pose proof (onResults_detecting _ clk st _ _ Hface Hcal) as Hstep.
      pose proof (onResults_detecting _ clk st' _ _ Hface Hf) as Hstep'.
      cbv zeta in Hstep, Hstep'. rewrite Hstep, Hstep'.
      cbn [fst snd closedEyeStart openMouthStart eyeStatus mouthStatus].
      unfold eyesClosedOn, isYawningOn. rewrite Hc.
      split; intros H; rewrite H; split; reflexivity.
Qed.

Lemma signals_do_not_interfere_witness :
  let face := mkResults (Some [sleepyFrame]) in
  eyeStatus (snd (onResults face (mkClock 0 4500)
                            (watching (Some 1000) (Some 77))))
  = eyeStatus (snd (onResults face (mkClock 0 4500)
                              (watching (Some 1000) None))).
Proof.
  intros face.
  exact (proj2 (proj1 (signals_do_not_interfere face (mkClock 0 4500)
                         (watching (Some 1000) None)
                         (watching (Some 1000) (Some 77))
                         eq_refl eq_refl) eq_refl)).
Defined.

(** X18. After calibration a frame that measures exactly the two baselines
    is neither eyes-closed nor a yawn: in a reachable calibration state
    with five or more samples the eye threshold does not exceed the eye
    baseline and the mouth threshold is not below the mouth baseline. *)
Theorem baseline_frame_is_active
  (landmarks : FaceLandmarks) (st : HookState) (be bm : number) :
  calibration_reachable (calibration st) ->
  (5 <= calibrationSamples (calibration st))%nat ->
  earBaseline (calibration st) = Some be ->
  marBaseline (calibration st) = Some bm ->
  averageEAR landmarks = be ->
  mouthRatio landmarks = bm ->
  eyesClosedOn landmarks st = false /\ isYawningOn landmarks st = false.
Proof.
  intros Hreach Hfive Hbe Hbm He Hm.
  destruct (reachable_sane _ Hreach) as [Hear Hmar].
  destruct (Hear be Hbe) as (re & Hre & Hpe).
  destruct (Hmar bm Hbm) as (rm & Hrm & Hpm).
  rewrite Hre in He, Hbe. rewrite Hrm in Hm, Hbm.
  unfold eyesClosedOn, isYawningOn, getCurrentEARThreshold,
    getCurrentMARThreshold.
  rewrite He, Hm, Hbe, Hbm. apply Nat.leb_le in Hfive. rewrite Hfive.
  cbn [EAR_CALIBRATION_FACTOR MAR_CALIBRATION_FACTOR num_mul num_gtb num_ltb].
  split; apply Rltb_false; nra.
Qed.

Lemma baseline_frame_is_active_witness :
  let st := mkHook (feedCalibration (repeat attentiveFrame 5)
                                    initialCalibration)
                   false None None false 0 in
  calibration_reachable (calibration st) /\
  eyesClosedOn attentiveFrame st = false /\
  isYawningOn attentiveFrame st = false.
Proof.
  intros st.
  assert (Hr : calibration_reachable (calibration st))
    by (apply feed_reachable; apply reach_initial).
  split; [exact Hr|].
  apply (baseline_frame_is_active attentiveFrame st
           (Fin (45 / 100)) (Fin (3 / 10)) Hr);
    unfold st; cbn [calibration]; rewrite ?calibrated_state;
    cbn [calibrationSamples earBaseline marBaseline];
    first [ lia | reflexivity | apply attentive_averageEAR
          | apply attentive_mouthRatio ].
Defined.
